(** * oscope-scpi: the Keysight command layer and the NPZ-to-CSV converter

    A shallow embedding of [src/oscope_scpi/keysight.py] (the DVM polling
    helper [_readDVM], the scalar helper [_measure], their wrappers and the
    annotation commands) and of [src/oscopecsv.py], followed by the
    properties of the specification that concern them.

    Readings are IEEE binary64 numbers ([PrimFloat.float]), as Python's
    [float] is.  The instrument is an oracle that answers a query from the
    history of the session; every command the code sends is appended to that
    history, so that statements about what was (not) sent are statements
    about the trace. *)

From Stdlib Require Import ZArith List String Ascii Bool Lia Floats DecimalString.
Import ListNotations.
Open Scope string_scope.
Open Scope bool_scope.

(** ** Python values that reach the [channel] argument *)

Module Py.

(** A channel selector is dynamically typed: the default [None], a string
    such as ['1'] or ['POD1'], an integer, or a list of selectors. *)
#[local] Unset Elimination Schemes.
Inductive value : Type :=
| None_
| Str (s : string)
| Int (z : Z)
| List (l : list value).
#[local] Set Elimination Schemes.

(** [x is None] *)
Definition is_none (v : value) : bool :=
  match v with None_ => true | _ => false end.

(** [type(x) is list] *)
Definition is_list (v : value) : bool :=
  match v with List _ => true | _ => false end.

(** [a == b] *)
Fixpoint eqb (a b : value) : bool :=
  match a, b with
  | None_, None_ => true
  | Str s, Str t => String.eqb s t
  | Int x, Int y => Z.eqb x y
  | List l, List m =>
      (fix all2 (l m : list value) : bool :=
         match l, m with
         | [], [] => true
         | x :: l', y :: m' => eqb x y && all2 l' m'
         | _, _ => false
         end) l m
  | _, _ => false
  end.

(** [a != b] *)
Definition neb (a b : value) : bool := negb (eqb a b).

(** [v in l] for a list [l] of strings *)
Definition in_ (v : value) (l : list string) : bool :=
  existsb (fun s => eqb v (Str s)) l.

(** [str(n)] for a non-negative integer *)
Definition str_nat (n : nat) : string := NilZero.string_of_uint (Nat.to_uint n).

(** [str(z)] for an integer *)
Definition str_Z (z : Z) : string := NilZero.string_of_int (Z.to_int z).

(** ['{}'.format(v)].  The code formats a channel only after it has
    raised on lists, so the list case (Python prints the [repr] of the
    elements there) is never reached from the functions below; it is
    rendered without the quotes of [repr]. *)
Fixpoint str (v : value) : string :=
  match v with
  | None_ => "None"
  | Str s => s
  | Int z => str_Z z
  | List l =>
      "[" ++ (fix items (l : list value) : string :=
                match l with
                | [] => ""
                | [x] => str x
                | x :: l' => str x ++ ", " ++ items l'
                end) l ++ "]"
  end.

(** Truth value of a string-or-[None] argument: [if (para):] *)
Definition truthy_str (p : option string) : bool :=
  match p with
  | Some s => negb (String.eqb s "")
  | None => false
  end.

(** Truth value of a number-or-[None] argument: [if (wait):]; zero of
    either sign is false, everything else (a NaN too) is true. *)
Definition truthy_num (w : option float) : bool :=
  match w with
  | Some f => negb (PrimFloat.eqb f 0)
  | None => false
  end.

(** [type(x) is int] *)
Definition is_int (v : value) : bool :=
  match v with Int _ => true | _ => false end.

(** The exceptions the modelled code raises, itself or through
    [time.sleep]. *)
Inductive exn : Type :=
| ValueError (msg : string)
| KeyError (key : string)
| OverflowError (msg : string).

End Py.

(** ** The session: parent class, instrument and clock *)

(** What was done to the outside world, oldest first. *)
Inductive Event : Type :=
| Write (cmd : string)         (* [_instWrite(cmd)] *)
| Query (cmd : string)         (* [_instQuery(cmd)] *)
| QueryNumber (cmd : string)   (* [_instQueryNumber(cmd)] *)
| Sleep (secs : float)         (* [sleep(secs)] *)
| Now.                         (* [datetime.now()] *)

Definition Event_eqb (a b : Event) : bool :=
  match a, b with
  | Write s, Write t => String.eqb s t
  | Query s, Query t => String.eqb s t
  | QueryNumber s, QueryNumber t => String.eqb s t
  | Sleep x, Sleep y => PrimFloat.Leibniz.eqb x y
  | Now, Now => true
  | _, _ => false
  end.

(** A query, of either kind. *)
Definition is_query (e : Event) : bool :=
  match e with
  | Query _ | QueryNumber _ => true
  | _ => false
  end.

(** Number of times the numeric query [cmd] was sent in a history. *)
Definition count_qnum (cmd : string) (h : list Event) : nat :=
  List.length (filter (Event_eqb (QueryNumber cmd)) h).

(** Number of polls of the DVM reading in a history. *)
Definition polls (h : list Event) : nat := count_qnum "DVM:CURRent?" h.

(** Number of readings of the clock in a history. *)
Definition ticks (h : list Event) : nat :=
  List.length (filter (Event_eqb Now) h).

(** The commands written in a history that start with [pre]. *)
Definition writes_with (pre : string) (h : list Event) : list string :=
  flat_map (fun e => match e with
                     | Write cmd => if String.prefix pre cmd then [cmd] else []
                     | _ => []
                     end) h.

(** Members of the parent class [Oscilloscope] that [keysight.py] calls
    and that are defined outside this file of the source.  They are taken
    as they are used: pure functions of their argument. *)
Class Oscilloscope : Type := {
  (** [self.channelStr(channel)]: the SCPI name of a channel *)
  channelStr : Py.value -> string;
  (** [self._chanNumber(str)]: what the parent's parser makes of a
      source reply *)
  _chanNumber : string -> Py.value;
  (** [self._1OR0(str)]: decode an on/off reply *)
  _1OR0 : string -> bool
}.

(** The world outside the program: the instrument at the other end of
    the transport, the wall clock, and Python's [float(str)].  A reply and
    a clock reading are functions of everything that happened before.  The
    parent's [_instQueryNumber] is taken to hand over the number the
    instrument sent. *)
Class Bench : Type := {
  (** reply to [_instQuery(cmd)] after history [h] *)
  answer : list Event -> string -> string;
  (** reply to [_instQueryNumber(cmd)] after history [h] *)
  number : list Event -> string -> float;
  (** [datetime.now()] after history [h], in microseconds *)
  clock : list Event -> Z;
  (** [float(s)]; [None] when Python raises [ValueError] *)
  float_of_str : string -> option float
}.

(** ** The [Keysight] object and the effects of its methods *)

Module Keysight.

(** The instance fields the modelled methods read or write. *)
Record obj : Type := {
  channel : Py.value;                (* the current channel *)
  _max_chan : nat;
  _version : float;                  (* firmware version *)
  OverRange : float;                 (* the over-range sentinel *)
  _chanAnaValidList : list string;
  _chanAllValidList : list string;
  _annotationText : string;
  _annotationColor : string
}.

Definition with_channel (c : Py.value) (o : obj) : obj :=
  {| channel := c; _max_chan := _max_chan o; _version := _version o;
     OverRange := OverRange o;
     _chanAnaValidList := _chanAnaValidList o;
     _chanAllValidList := _chanAllValidList o;
     _annotationText := _annotationText o;
     _annotationColor := _annotationColor o |}.

Definition with_annotationText (t : string) (o : obj) : obj :=
  {| channel := channel o; _max_chan := _max_chan o; _version := _version o;
     OverRange := OverRange o;
     _chanAnaValidList := _chanAnaValidList o;
     _chanAllValidList := _chanAllValidList o;
     _annotationText := t;
     _annotationColor := _annotationColor o |}.

Definition with_annotationColor (c : string) (o : obj) : obj :=
  {| channel := channel o; _max_chan := _max_chan o; _version := _version o;
     OverRange := OverRange o;
     _chanAnaValidList := _chanAnaValidList o;
     _chanAllValidList := _chanAllValidList o;
     _annotationText := _annotationText o;
     _annotationColor := c |}.

(** [__init__]: the parent's constructor sets the current channel, the
    firmware version and the sentinel (given here as arguments); the two
    lists of valid channels and the annotation fields are set by
    [Keysight.__init__] itself. *)
Definition __init__ `{Oscilloscope} (maxChannel : nat) (chan0 : Py.value)
    (version overRange : float) : obj :=
  {| channel := chan0; _max_chan := maxChannel; _version := version;
     OverRange := overRange;
     _chanAnaValidList := map Py.str_nat (seq 1 maxChannel);
     _chanAllValidList :=
       map (fun x => channelStr (Py.Int (Z.of_nat x))) (seq 1 maxChannel)
       ++ ["POD1"; "POD2"];
     _annotationText := "";
     _annotationColor := "ch1" |}.

(** The state a method runs in: the object and the history so far. *)
Record state : Type := { self : obj; trace : list Event }.

(** How a call ends: it returns, it raises, or (for the model of the
    unbounded loop only) the iteration budget ran out while it was still
    running; each with the state reached. *)
Inductive outcome (A : Type) : Type :=
| Ret (a : A) (s : state)
| Raise (e : Py.exn) (s : state)
| OutOfFuel (s : state).
Arguments Ret {A} a s.
Arguments Raise {A} e s.
Arguments OutOfFuel {A} s.

Definition final {A} (r : outcome A) : state :=
  match r with
  | Ret _ s | Raise _ s | OutOfFuel s => s
  end.

(** The call ended (it was not cut short by the iteration budget). *)
Definition ended {A} (r : outcome A) : bool :=
  match r with
  | Ret _ _ | Raise _ _ => true
  | OutOfFuel _ => false
  end.

Definition M (A : Type) : Type := state -> outcome A.

Definition ret {A} (a : A) : M A := fun s => Ret a s.

Definition bind {A B} (m : M A) (k : A -> M B) : M B :=
  fun s =>
    match m s with
    | Ret a s' => k a s'
    | Raise e s' => Raise e s'
    | OutOfFuel s' => OutOfFuel s'
    end.

Definition raise {A} (e : Py.exn) : M A := fun s => Raise e s.

Declare Scope py_scope.
Delimit Scope py_scope with py.
Notation "x <- m ;; k" := (bind m (fun x => k))
  (at level 61, m at next level, right associativity) : py_scope.
Notation "m ;;; k" := (bind m (fun _ => k))
  (at level 61, right associativity) : py_scope.
Notation "'when' b 'then' m" := (if b then m else ret tt)
  (at level 60, b at level 9) : py_scope.
Open Scope py_scope.

(** Reading and writing the object *)
Definition get {A} (f : obj -> A) : M A := fun s => Ret (f (self s)) s.

Definition set_channel (c : Py.value) : M unit :=
  fun s => Ret tt {| self := with_channel c (self s); trace := trace s |}.

Definition set_annotationText (t : string) : M unit :=
  fun s => Ret tt {| self := with_annotationText t (self s); trace := trace s |}.

Definition set_annotationColor (c : string) : M unit :=
  fun s => Ret tt {| self := with_annotationColor c (self s); trace := trace s |}.

Definition log (e : Event) (s : state) : state :=
  {| self := self s; trace := trace s ++ [e] |}.

(** What [time.sleep(secs)] raises instead of pausing, as CPython 3.11
    does on a 64-bit platform.  A NaN is refused.  The pause is counted in
    nanoseconds, [secs * 1e9] as a float, and refused when that number does
    not fit a signed 64-bit integer, or is negative; 2^63 itself passes the
    range check, is converted to the least integer and refused as
    negative. *)
Definition time_sleep_error (secs : float) : option Py.exn :=
  let ns := (secs * 1000000000)%float in
  if PrimFloat.is_nan secs then
    Some (Py.ValueError "Invalid value NaN (not a number)")
  else if (ns <? - 0x1p63)%float || (0x1p63 <? ns)%float then
    Some (Py.OverflowError "timestamp too large to convert to C _PyTime_t")
  else if (ns <? 0)%float || (ns =? 0x1p63)%float then
    Some (Py.ValueError "sleep length must be non-negative")
  else None.

Section Effects.
Context `{Oscilloscope} `{Bench}.

(** The transport, as the parent class exposes it *)
Definition _instWrite (cmd : string) : M unit :=
  fun s => Ret tt (log (Write cmd) s).

Definition _instQuery (cmd : string) : M string :=
  fun s => Ret (answer (trace s) cmd) (log (Query cmd) s).

Definition _instQueryNumber (cmd : string) : M float :=
  fun s => Ret (number (trace s) cmd) (log (QueryNumber cmd) s).

(** [sleep(secs)]: the pause is recorded when [time.sleep] takes it. *)
Definition sleep (secs : float) : M unit :=
  fun s =>
    match time_sleep_error secs with
    | Some e => Raise e s
    | None => Ret tt (log (Sleep secs) s)
    end.

Definition datetime_now : M Z :=
  fun s => Ret (clock (trace s)) (log Now s).

End Effects.

(** *** Time *)

(** An integer as an unrounded binary number. *)
Definition SF_of_Z (z : Z) : spec_float :=
  match z with
  | Z0 => S754_zero false
  | Zpos p => S754_finite false p 0
  | Zneg p => S754_finite true p 0
  end.

(** [timedelta.total_seconds()] of a duration in microseconds: the
    quotient of two integers, [us / 10**6], rounded once to the nearest
    binary64 number. *)
Definition total_seconds (us : Z) : float :=
  SF2Prim (SFdiv prec emax (SF_of_Z us) (SF_of_Z 1000000)).

(** [timeout is not None and duration.total_seconds() >= timeout] *)
Definition timed_out (timeout : option float) (duration : Z) : bool :=
  match timeout with
  | Some t => (t <=? total_seconds duration)%float
  | None => false
  end.

(** [val >= self.OverRange] *)
Definition over_range (o : obj) (val : float) : bool :=
  (OverRange o <=? val)%float.

Section Methods.
Context `{Oscilloscope} `{Bench}.

(** *** DVM *)

Definition DVMisEnabled : M bool :=
  en <- _instQuery "DVM:ENABle?" ;;
  ret (_1OR0 en).

Definition enableDVM (enable : bool) : M unit :=
  if enable then _instWrite "DVM:ENABLE ON"
  else _instWrite "DVM:ENABLE OFF".

(** The loop of [_readDVM]:
<<
    while (val >= self.OverRange):
        duration = datetime.now() - startTime
        if (timeout is not None and duration.total_seconds() >= timeout):
            break
        val = self._instQueryNumber("DVM:CURRent?")
>>
    [fuel] bounds the number of iterations the model follows. *)
Fixpoint poll (fuel : nat) (timeout : option float) (startTime : Z)
    (val : float) : M float :=
  o <- get (fun o => o) ;;
  if negb (over_range o val) then ret val
  else
    match fuel with
    | O => fun s => OutOfFuel s
    | S fuel' =>
        now <- datetime_now ;;
        if timed_out timeout (now - startTime) then ret val
        else
          val' <- _instQueryNumber "DVM:CURRent?" ;;
          poll fuel' timeout startTime val'
    end.

(** [_readDVM(self, mode, channel=None, timeout=None, wait=0.5)] *)
Definition _readDVM (fuel : nat) (mode : string) (channel : Py.value)
    (timeout wait : option float) : M float :=
  when (negb (Py.is_none channel) && negb (Py.is_list channel)) then
    set_channel channel ;;;
  ch <- get Keysight.channel ;;
  if Py.is_list ch || Py.is_list channel then
    raise (Py.ValueError "Channel cannot be a list for DVM!")
  else
  valid <- get _chanAnaValidList ;;
  if negb (Py.in_ ch valid) then
    raise (Py.ValueError
             ("INVALID Channel Value for DVM: " ++ Py.str ch ++ "  SKIPPING!"))
  else
  en <- DVMisEnabled ;;
  when (negb en) then enableDVM true ;;;
  src <- _instQuery "DVM:SOURce?" ;;
  when (Py.neb (_chanNumber src) ch) then
    _instWrite ("DVM:SOURce " ++ channelStr ch) ;;;
  _instWrite ("DVM:MODE " ++ mode) ;;;
  match wait with
  | Some w => when (Py.truthy_num wait) then sleep w
  | None => ret tt
  end ;;;
  startTime <- datetime_now ;;
  over <- get OverRange ;;
  val <- poll fuel timeout startTime over ;;
  if String.eqb mode "FREQ" then _instQueryNumber "DVM:FREQ?"
  else ret val.

(** The wrappers; the defaults of the source are [channel=None],
    [wait=0.5], and [timeout=None] except for [measureDVMfreq], whose
    default is [timeout=3]. *)
Definition measureDVMacrms (fuel : nat) (channel : Py.value)
    (timeout wait : option float) : M float :=
  _readDVM fuel "ACRM" channel timeout wait.

Definition measureDVMdc (fuel : nat) (channel : Py.value)
    (timeout wait : option float) : M float :=
  _readDVM fuel "DC" channel timeout wait.

Definition measureDVMdcrms (fuel : nat) (channel : Py.value)
    (timeout wait : option float) : M float :=
  _readDVM fuel "DCRM" channel timeout wait.

Definition measureDVMfreq (fuel : nat) (channel : Py.value)
    (timeout wait : option float) : M float :=
  _readDVM fuel "FREQ" channel timeout wait.

(** *** Scalar measurements *)

(** [_measure(self, mode, para=None, channel=None, wait=0.25,
    install=False)].  [float(val)] raises [ValueError] on a reply that
    is not a number; the text of that message is Python's, rendered
    here without the escapes of [repr]. *)
Definition _measure (mode : string) (para : option string)
    (channel : Py.value) (wait : option float) (install : bool) : M float :=
  when (negb (Py.is_none channel) && negb (Py.is_list channel)) then
    set_channel channel ;;;
  ch <- get Keysight.channel ;;
  if Py.is_list ch || Py.is_list channel then
    raise (Py.ValueError "Channel cannot be a list for MEASURE!")
  else
  valid <- get _chanAllValidList ;;
  if negb (Py.in_ ch valid) then
    raise (Py.ValueError
             ("INVALID Channel Value for MEASURE: " ++ Py.str ch ++ "  SKIPPING!"))
  else
  src <- _instQuery "MEASure:SOURce?" ;;
  when (Py.neb (Py.Str src) ch) then
    _instWrite ("MEASure:SOURce " ++ Py.str ch) ;;;
  let strWr :=
    match para with
    | Some p => if Py.truthy_str para then "MEASure:" ++ mode ++ " " ++ p
                else "MEASure:" ++ mode
    | None => "MEASure:" ++ mode
    end in
  let strQu :=
    match para with
    | Some p => if Py.truthy_str para then "MEASure:" ++ mode ++ "? " ++ p
                else "MEASure:" ++ mode ++ "?"
    | None => "MEASure:" ++ mode ++ "?"
    end in
  when install then
    (_instWrite "MEASure:STATistics:DISPlay ON" ;;; _instWrite strWr) ;;;
  match wait with
  | Some w => when (Py.truthy_num wait) then sleep w
  | None => ret tt
  end ;;;
  val <- _instQuery strQu ;;
  match float_of_str val with
  | Some f => ret f
  | None =>
      raise (Py.ValueError
               ("could not convert string to float: '" ++ val ++ "'"))
  end.

(** The wrappers; the defaults of the source are [channel=None],
    [wait=0.25], [install=False]. *)
Definition measureBitRate (channel : Py.value) (wait : option float)
    (install : bool) : M float :=
  _measure "BRATe" None channel wait install.

Definition measureBurstWidth (channel : Py.value) (wait : option float)
    (install : bool) : M float :=
  _measure "BWIDth" None channel wait install.

Definition measureCounterFrequency (channel : Py.value) (wait : option float)
    (install : bool) : M float :=
  _measure "COUNter" None channel wait false.

Definition measurePosDutyCycle (channel : Py.value) (wait : option float)
    (install : bool) : M float :=
  _measure "DUTYcycle" None channel wait install.

Definition measureFallTime (channel : Py.value) (wait : option float)
    (install : bool) : M float :=
  _measure "FALLtime" None channel wait install.

Definition measureRiseTime (channel : Py.value) (wait : option float)
    (install : bool) : M float :=
  _measure "RISetime" None channel wait install.

Definition measureFrequency (channel : Py.value) (wait : option float)
    (install : bool) : M float :=
  _measure "FREQ" None channel wait install.

Definition measureNegDutyCycle (channel : Py.value) (wait : option float)
    (install : bool) : M float :=
  _measure "NDUTy" None channel wait install.

Definition measureFallEdgeCount (channel : Py.value) (wait : option float)
    (install : bool) : M float :=
  _measure "NEDGes" None channel wait install.

Definition measureFallPulseCount (channel : Py.value) (wait : option float)
    (install : bool) : M float :=
  _measure "NPULses" None channel wait install.

Definition measureNegPulseWidth (channel : Py.value) (wait : option float)
    (install : bool) : M float :=
  _measure "NWIDth" None channel wait install.

Definition measureOvershoot (channel : Py.value) (wait : option float)
    (install : bool) : M float :=
  _measure "OVERshoot" None channel wait install.

Definition measurePreshoot (channel : Py.value) (wait : option float)
    (install : bool) : M float :=
  _measure "PREShoot" None channel wait install.

Definition measureRiseEdgeCount (channel : Py.value) (wait : option float)
    (install : bool) : M float :=
  _measure "PEDGes" None channel wait install.

Definition measureRisePulseCount (channel : Py.value) (wait : option float)
    (install : bool) : M float :=
  _measure "PPULses" None channel wait install.

Definition measurePosPulseWidth (channel : Py.value) (wait : option float)
    (install : bool) : M float :=
  _measure "PWIDth" None channel wait install.

Definition measurePeriod (channel : Py.value) (wait : option float)
    (install : bool) : M float :=
  _measure "PERiod" None channel wait install.

Definition measureVoltAmplitude (channel : Py.value) (wait : option float)
    (install : bool) : M float :=
  _measure "VAMPlitude" None channel wait install.

Definition measureVoltAverage (channel : Py.value) (wait : option float)
    (install : bool) : M float :=
  _measure "VAVerage" (Some "DISPlay") channel wait install.

Definition measureVoltRMS (channel : Py.value) (wait : option float)
    (install : bool) : M float :=
  _measure "VRMS" (Some "DISPlay") channel wait install.

Definition measureVoltBase (channel : Py.value) (wait : option float)
    (install : bool) : M float :=
  _measure "VBASe" None channel wait install.

Definition measureVoltTop (channel : Py.value) (wait : option float)
    (install : bool) : M float :=
  _measure "VTOP" None channel wait install.

Definition measureVoltMax (channel : Py.value) (wait : option float)
    (install : bool) : M float :=
  _measure "VMAX" None channel wait install.

Definition measureVoltMin (channel : Py.value) (wait : option float)
    (install : bool) : M float :=
  _measure "VMIN" None channel wait install.

Definition measureVoltPP (channel : Py.value) (wait : option float)
    (install : bool) : M float :=
  _measure "VPP" None channel wait install.

(** Every [measure*] method of the class, in the order of the source. *)
Definition measure_wrappers
    : list (Py.value -> option float -> bool -> M float) :=
  [measureBitRate; measureBurstWidth; measureCounterFrequency;
   measurePosDutyCycle; measureFallTime; measureRiseTime; measureFrequency;
   measureNegDutyCycle; measureFallEdgeCount; measureFallPulseCount;
   measureNegPulseWidth; measureOvershoot; measurePreshoot;
   measureRiseEdgeCount; measureRisePulseCount; measurePosPulseWidth;
   measurePeriod; measureVoltAmplitude; measureVoltAverage; measureVoltRMS;
   measureVoltBase; measureVoltTop; measureVoltMax; measureVoltMin;
   measureVoltPP].

(** Every [measureDVM*] method of the class. *)
Definition measureDVM_wrappers
    : list (nat -> Py.value -> option float -> option float -> M float) :=
  [measureDVMacrms; measureDVMdc; measureDVMdcrms; measureDVMfreq].

(** *** Annotation *)

(** The character that delimits the text in a bookmark command. *)
Definition dquote : string := String (ascii_of_nat 34) EmptyString.

Definition _colorNameOldtoNew : list (string * string) :=
  [("ch1", "CHAN1"); ("ch2", "CHAN2"); ("ch3", "CHAN3"); ("ch4", "CHAN4");
   ("ch5", "CHAN5"); ("ch6", "CHAN6"); ("ch7", "CHAN7"); ("ch8", "CHAN8");
   ("dig", "DCH"); ("math", "FUNC1"); ("ref", "WMEM"); ("marker", "MARK");
   ("white", "FUNC14"); ("red", "FUNC12")].

(** [d[k]] on a dictionary with string keys *)
Fixpoint dict_get (d : list (string * string)) (k : string) : option string :=
  match d with
  | [] => None
  | (k', v) :: d' => if String.eqb k k' then Some v else dict_get d' k
  end.

(** [annotateColor(self, color)]; 2.60 is the binary64 number nearest
    to it, as in Python. *)
Definition annotateColor (color : option string) : M unit :=
  version <- get _version ;;
  if (0x1.4cccccccccccdp+1 <? version)%float then
    match color with
    | Some c => set_annotationColor c
    | None => ret tt
    end ;;;
    _instWrite "DISPlay:BOOKmark1:XPOSition 0.015" ;;;
    _instWrite "DISPlay:BOOKmark1:YPOSition 0.06" ;;;
    text <- get _annotationText ;;
    col <- get _annotationColor ;;
    match dict_get _colorNameOldtoNew col with
    | Some new =>
        _instWrite ("DISPlay:BOOKmark1:SET NONE," ++ dquote ++ text ++ dquote
                    ++ "," ++ new ++ "," ++ dquote ++ text ++ dquote)
    | None => raise (Py.KeyError col)
    end
  else
    match color with
    | Some c => _instWrite ("DISPlay:ANN:COLor " ++ c)
    | None => ret tt
    end.

(** [annotate(self, text, color=None, background='TRAN')] *)
Definition annotate (text : string) (color : option string)
    (background : string) : M unit :=
  set_annotationText text ;;;
  annotateColor color ;;;
  version <- get _version ;;
  when (version <=? 0x1.4cccccccccccdp+1)%float then
    (_instWrite ("DISPlay:ANN:BACKground " ++ background) ;;;
     _instWrite ("DISPlay:ANN:TEXT " ++ dquote ++ text ++ dquote) ;;;
     _instWrite "DISPlay:ANN ON").

(** [annotateOff(self)] *)
Definition annotateOff : M unit :=
  version <- get _version ;;
  if (0x1.4cccccccccccdp+1 <? version)%float then
    _instWrite "DISPlay:BOOKmark1:DELete"
  else _instWrite "DISPlay:ANN OFF".

End Methods.

(** *** Vocabulary of the properties *)

(** The channel a call works on: the argument when one is passed (and
    is not a list), the current channel otherwise. *)
Definition selected (o : obj) (channel : Py.value) : Py.value :=
  if negb (Py.is_none channel) && negb (Py.is_list channel) then channel
  else Keysight.channel o.

(** The state a call works in once it has selected its channel. *)
Definition select (channel : Py.value) (s : state) : state :=
  {| self := with_channel (selected (self s) channel) (self s);
     trace := trace s |}.

(** A call started in state [s] is rejected: it raises [ValueError]
    and has sent nothing, neither a write nor a query. *)
Definition rejected {A} (r : outcome A) (s : state) : Prop :=
  exists msg s', r = Raise (Py.ValueError msg) s' /\ trace s' = trace s.

(** The selector [c] is refused by a check against the list [valid] in
    state [s]: it is a list, or the channel it selects (itself, or the
    current channel when it is [None]) is not in [valid]. *)
Definition refused (valid : list string) (c : Py.value) (s : state) : Prop :=
  Py.is_list c = true \/ Py.in_ (selected (self s) c) valid = false.

Section Vocabulary.
Context `{Oscilloscope} `{Bench}.

(** A scripted instrument: the reply to a poll of the DVM reading
    depends only on how many polls came before it. *)
Definition scripted_polls (script : nat -> float) : Prop :=
  forall h, number h "DVM:CURRent?" = script (polls h).

(** A scripted clock: a reading depends only on how many readings
    came before it. *)
Definition scripted_clock (time : nat -> Z) : Prop :=
  forall h, clock h = time (ticks h).

(** What [_readDVM] sends to find out whether the DVM is on, and to
    turn it on, after history [h]. *)
Definition enable_events (h : list Event) : list Event :=
  Query "DVM:ENABle?"
  :: (if _1OR0 (answer h "DVM:ENABle?") then [] else [Write "DVM:ENABLE ON"]).

(** The reply [_readDVM] gets to its [DVM:SOURce?] query when it is
    called after history [h]. *)
Definition dvm_source (h : list Event) : string :=
  answer (h ++ enable_events h) "DVM:SOURce?".

(** What [_readDVM] sends to switch the source to channel [ch]. *)
Definition switch_events (h : list Event) (ch : Py.value) : list Event :=
  if Py.neb (_chanNumber (dvm_source h)) ch
  then [Write ("DVM:SOURce " ++ channelStr ch)] else [].

(** What the settle delay raises: what [time.sleep] raises for [wait],
    when [wait] is a number other than zero. *)
Definition wait_error (wait : option float) : option Py.exn :=
  match wait with
  | Some w => if Py.truthy_num wait then time_sleep_error w else None
  | None => None
  end.

(** The pause of the settle delay, when there is one. *)
Definition sleep_events (wait : option float) : list Event :=
  match wait with
  | Some w =>
      if Py.truthy_num wait then
        match time_sleep_error w with
        | Some _ => []
        | None => [Sleep w]
        end
      else []
  | None => []
  end.

(** Everything [_readDVM] does after history [h] before it starts its
    clock, or before its settle delay raises. *)
Definition setup_events (h : list Event) (ch : Py.value) (mode : string)
    (wait : option float) : list Event :=
  enable_events h ++ Query "DVM:SOURce?" :: switch_events h ch
  ++ Write ("DVM:MODE " ++ mode) :: sleep_events wait.

(** [n] rounds of the polling loop: a look at the clock, then a poll. *)
Definition rounds (n : nat) : list Event :=
  List.concat (repeat [Now; QueryNumber "DVM:CURRent?"] n).

(** The value the loop holds after [N] polls of a scripted
    instrument that had answered [k0] polls before, when it began with
    [val]. *)
Definition last_seen (script : nat -> float) (val : float) (k0 N : nat)
    : float :=
  match N with
  | 0 => val
  | S n => script (k0 + n)
  end.

(** What [_readDVM] does with the value the loop ends with: in mode
    FREQ it asks the frequency counter instead. *)
Definition after_poll (mode : string) (val : float) : M float :=
  if String.eqb mode "FREQ" then _instQueryNumber "DVM:FREQ?" else ret val.

(** The measurement query of [_measure] and its command form. *)
Definition measure_query (mode : string) (para : option string) : string :=
  match para with
  | Some p => if Py.truthy_str para then "MEASure:" ++ mode ++ "? " ++ p
              else "MEASure:" ++ mode ++ "?"
  | None => "MEASure:" ++ mode ++ "?"
  end.

Definition measure_command (mode : string) (para : option string) : string :=
  match para with
  | Some p => if Py.truthy_str para then "MEASure:" ++ mode ++ " " ++ p
              else "MEASure:" ++ mode
  | None => "MEASure:" ++ mode
  end.

(** What [_measure] does after history [h] between its source query
    and its measurement query, or before its settle delay raises. *)
Definition measure_events (h : list Event) (ch : Py.value) (mode : string)
    (para : option string) (wait : option float) (install : bool)
    : list Event :=
  (if Py.neb (Py.Str (answer h "MEASure:SOURce?")) ch
   then [Write ("MEASure:SOURce " ++ Py.str ch)] else [])
  ++ (if install
      then [Write "MEASure:STATistics:DISPlay ON";
            Write (measure_command mode para)]
      else [])
  ++ sleep_events wait.

End Vocabulary.

(** *** Labels, statistics and display of values *)

(** [s.split(',')]: the fields between the commas, at least one. *)
Fixpoint split_comma (s : string) : list string :=
  match s with
  | EmptyString => [EmptyString]
  | String c r =>
      if Ascii.eqb c ","%char then EmptyString :: split_comma r
      else
        match split_comma r with
        | f :: fs => String c f :: fs
        | [] => [String c EmptyString]
        end
  end.

(** Number of occurrences of a character in a text. *)
Fixpoint count_char (c : ascii) (s : string) : nat :=
  match s with
  | EmptyString => 0
  | String c' r => (if Ascii.eqb c c' then 1 else 0) + count_char c r
  end.

(** What [polish] returns: the string it shows for an invalid value, or
    a [Quantity] of the QuantiPhy package, built from the value and
    possibly its units. *)
Inductive polished : Type :=
| Text (s : string)
| Quantity (value : float) (units : option string).

(** [d[k]] on a dictionary with string keys and any values *)
Fixpoint tbl_get {V : Type} (d : list (string * V)) (k : string) : option V :=
  match d with
  | [] => None
  | (k', v) :: d' => if String.eqb k k' then Some v else tbl_get d' k
  end.

Section MoreMethods.
Context `{Oscilloscope} `{Bench}.

(** [channelLabel(self, label, channel=None)] *)
Definition channelLabel (label : string) (channel : Py.value) : M unit :=
  when (negb (Py.is_none channel) && negb (Py.is_list channel)) then
    set_channel channel ;;;
  ch <- get Keysight.channel ;;
  if Py.is_list ch || Py.is_list channel then
    raise (Py.ValueError "Channel cannot be a list for CHANNEL LABEL!")
  else
  valid <- get _chanAnaValidList ;;
  if negb (Py.in_ ch valid) then
    raise (Py.ValueError
             ("INVALID Channel Value for CHANNEL LABEL: " ++ Py.str ch
              ++ "  SKIPPING!"))
  else
  _instWrite ("CHAN" ++ Py.str ch ++ ":LABel " ++ dquote ++ label ++ dquote) ;;;
  _instWrite "DISPlay:LABel ON".

(** [channelLabelOff(self)] *)
Definition channelLabelOff : M unit :=
  _instWrite "DISPlay:LABel OFF".

(** [_measureStatistics(self)] *)
Definition _measureStatistics : M (list string) :=
  _instWrite "MEASure:STATistics ON" ;;;
  reply <- _instQuery "MEASure:RESults?" ;;
  ret (split_comma reply).

(** The dictionary [_measureTbl]: for each label, the units and the
    method that measures it. *)
Definition _measureTbl
    : list (string * (string * (Py.value -> option float -> bool -> M float))) :=
  [("Bit Rate", ("Hz", measureBitRate));
   ("Burst Width", ("s", measureBurstWidth));
   ("Counter Freq", ("Hz", measureCounterFrequency));
   ("Frequency", ("Hz", measureFrequency));
   ("Period", ("s", measurePeriod));
   ("Duty", ("%", measurePosDutyCycle));
   ("Neg Duty", ("%", measureNegDutyCycle));
   ("Fall Time", ("s", measureFallTime));
   ("Rise Time", ("s", measureRiseTime));
   ("Num Falling", (EmptyString, measureFallEdgeCount));
   ("Num Neg Pulses", (EmptyString, measureFallPulseCount));
   ("Num Rising", (EmptyString, measureRiseEdgeCount));
   ("Num Pos Pulses", (EmptyString, measureRisePulseCount));
   ("- Width", ("s", measureNegPulseWidth));
   ("+ Width", ("s", measurePosPulseWidth));
   ("Overshoot", ("%", measureOvershoot));
   ("Preshoot", ("%", measurePreshoot));
   ("Amplitude", ("V", measureVoltAmplitude));
   ("Top", ("V", measureVoltTop));
   ("Base", ("V", measureVoltBase));
   ("Maximum", ("V", measureVoltMax));
   ("Minimum", ("V", measureVoltMin));
   ("Pk-Pk", ("V", measureVoltPP));
   ("V p-p", ("V", measureVoltPP));
   ("Average - Full Screen", ("V", measureVoltAverage));
   ("RMS - Full Screen", ("V", measureVoltRMS))].

(** [polish(self, value, measure=None)].  [self._measureTbl[measure]]
    raises [KeyError] for a label that is not in the table, [None]
    included, and the handler builds the quantity without units. *)
Definition polish (o : obj) (value : float) (measure : option string)
    : polished :=
  if over_range o value then Text "------"
  else
    match measure with
    | Some m =>
        match tbl_get _measureTbl m with
        | Some entry => Quantity value (Some (fst entry))
        | None => Quantity value None
        end
    | None => Quantity value None
    end.

End MoreMethods.

(** The version threshold of the annotation methods, 2.60 as Python
    reads it. *)
Definition v2_60 : float := 0x1.4cccccccccccdp+1.

(** Every command written in a history, in order. *)
Definition writes (h : list Event) : list string :=
  flat_map (fun e => match e with Write cmd => [cmd] | _ => [] end) h.

(** Every pause in a history, in order. *)
Definition sleeps (h : list Event) : list float :=
  flat_map (fun e => match e with Sleep w => [w] | _ => [] end) h.

(** *** A bench for the examples *)

(** 9.9E+37, the sentinel of the SCPI programming guide, as the
    binary64 number Python reads it as. *)
Definition sentinel : float := 0x1.29ead3677af6fp+126.

(** Modelled from the spec: the parent's [_chanNumber], which the
    specification (section 9) calls a channel-number parser through which
    the DVM path normalizes the reply to [DVM:SOURce?] before comparing.
    It gives the number of the channel a reply [CHAN<d>] names, and 0 for
    any other reply. *)
Definition chanNumber_of_reply (reply : string) : Z :=
  if String.prefix "CHAN" reply then
    match String.get 4 reply with
    | Some d =>
        if (48 <=? nat_of_ascii d)%nat && (nat_of_ascii d <=? 57)%nat
        then Z.of_nat (nat_of_ascii d - 48) else 0%Z
    | None => 0%Z
    end
  else 0%Z.

(** A parent class for the examples: channels are named [CHAN<n>], as
    in the command surface of the instrument, and a source reply is
    parsed to a channel number. *)
Definition sample_scope : Oscilloscope :=
  {| channelStr := fun v => "CHAN" ++ Py.str v;
     _chanNumber := fun s => Py.Int (chanNumber_of_reply s);
     _1OR0 := fun s => String.prefix "1" s |}.

(** An instrument for the examples.  Its DVM is on and reads channel 1;
    a poll gives the sentinel [n] times, then 1.25; the frequency counter
    reads 1000; a scalar measurement is over range; the clock advances
    by one second at each reading. *)
Definition sample_bench (n : nat) : Bench :=
  {| answer := fun _ cmd =>
       if String.eqb cmd "DVM:ENABle?" then "1"
       else if String.eqb cmd "DVM:SOURce?" then "CHAN1"
       else if String.eqb cmd "MEASure:SOURce?" then "CHAN1"
       else "+9.9E+37";
     number := fun h cmd =>
       if String.eqb cmd "DVM:CURRent?"
       then (if (polls h <? n)%nat then sentinel else 1.25%float)
       else 1000%float;
     clock := fun h => (1000000 * Z.of_nat (ticks h))%Z;
     float_of_str := fun s =>
       if String.eqb s "+9.9E+37" then Some sentinel else None |}.

(** The same instrument with a DVM whose reading is always [v]. *)
Definition constant_bench (v : float) : Bench :=
  {| answer := @answer (sample_bench 0);
     number := fun _ _ => v;
     clock := @clock (sample_bench 0);
     float_of_str := @float_of_str (sample_bench 0) |}.

(** A four-channel instrument with firmware 7.5, channel 1 current. *)
Definition sample_obj : obj :=
  @__init__ sample_scope 4 (Py.Str "1") 7.5 sentinel.

Definition sample_state : state :=
  {| self := sample_obj; trace := [] |}.

End Keysight.

(** ** The converter script [oscopecsv.py] *)

Module OscopeCsv.

(** What the script does to the outside world. *)
Inductive effect : Type :=
| SaveFile (path content : string)   (* a file written by [np.savetxt] *)
| Print (line : string)              (* a line on standard output *)
| Exit (code : Z).                   (* an explicit [sys.exit(code)] *)

(** [pathlib.Path(filename).with_suffix(suffix)], a library function
    taken as given. *)
Class Pathlib : Type := {
  with_suffix : string -> string -> string
}.

(** *** [%.18e], the default format of [np.savetxt] *)

(** Round the positive rational [n/d] to the nearest integer, ties to
    the even one. *)
Definition round_half_even (n d : Z) : Z :=
  let q := (n / d)%Z in
  let r := (n mod d)%Z in
  match (2 * r ?= d)%Z with
  | Lt => q
  | Gt => (q + 1)%Z
  | Eq => if Z.even q then q else (q + 1)%Z
  end.

Definition str_N (z : Z) : string :=
  NilZero.string_of_uint (N.to_uint (Z.to_N z)).

(** The number of decimal digits of a positive integer, less one. *)
Definition log10 (z : Z) : Z :=
  (Z.of_nat (String.length (str_N z)) - 1)%Z.

(** The decimal exponent [k] of a positive rational:
    [10^k <= n/d < 10^(k+1)]. *)
Definition exponent10 (n d : Z) : Z :=
  if (d <=? n)%Z then log10 (n / d)
  else (- (log10 ((d - 1) / n) + 1))%Z.

(** The 19 significant digits and the decimal exponent that [%.18e]
    prints for the positive rational [n/d]. *)
Definition sci19 (n d : Z) : Z * Z :=
  let k := exponent10 n d in
  let q :=
    if (k <=? 18)%Z then round_half_even (n * 10 ^ (18 - k)) d
    else round_half_even n (d * 10 ^ (k - 18)) in
  if (q =? 10 ^ 19)%Z then ((10 ^ 18)%Z, (k + 1)%Z) else (q, k).

(** The exponent part: a sign and at least two digits. *)
Definition str_exp (k : Z) : string :=
  let a := Z.abs k in
  (if (k <? 0)%Z then "e-" else "e+")
  ++ (if (a <? 10)%Z then "0" else EmptyString) ++ str_N a.

Definition str_sci (q k : Z) : string :=
  match str_N q with
  | String c rest => String c ("." ++ rest) ++ str_exp k
  | EmptyString => EmptyString
  end.

(** ['%.18e' % f] for a binary64 number [f] *)
Definition fmt_e18 (f : float) : string :=
  match Prim2SF f with
  | S754_nan => "nan"
  | S754_infinity s => if s then "-inf" else "inf"
  | S754_zero s =>
      (if s then "-" else EmptyString) ++ "0.000000000000000000e+00"
  | S754_finite s m e =>
      let '(q, k) :=
        if (0 <=? e)%Z then sci19 (Zpos m * 2 ^ e) 1
        else sci19 (Zpos m) (2 ^ (- e)) in
      (if s then "-" else EmptyString) ++ str_sci q k
  end.

(** [delimiter.join(...)] *)
Fixpoint join (sep : string) (l : list string) : string :=
  match l with
  | [] => EmptyString
  | [s] => s
  | s :: l' => s ++ sep ++ join sep l'
  end.

(** The end-of-line character. *)
Definition newline : string := String (ascii_of_nat 10) EmptyString.

(** The text [np.savetxt(file, rows, delimiter=delimiter)] writes for a
    two-dimensional array, with NumPy's defaults [fmt='%.18e'],
    [newline='\n'] and no header or footer. *)
Definition savetxt (rows : list (list float)) (delimiter : string) : string :=
  concat EmptyString
    (map (fun row => join delimiter (map fmt_e18 row) ++ newline) rows).

(** [np.asarray([x, y]).T] for two one-dimensional arrays of the same
    length: one row [x_i, y_i] per index. *)
Definition transpose2 (x y : list float) : list (list float) :=
  map (fun p => [fst p; snd p]) (combine x y).

(** The script, run on the file [filename] whose arrays are [x] and
    [y]. *)
Definition main `{Pathlib} (filename : string) (x y : list float)
    : list effect :=
  let fileout := with_suffix filename ".csv" in
  if (List.length x =? List.length y)%nat then
    [SaveFile fileout (savetxt (transpose2 x y) ",")]
  else
    [Print ("ERROR: Number of x (" ++ Py.str_nat (List.length x)
            ++ ") and y (" ++ Py.str_nat (List.length y)
            ++ ") values do not match!")].

Definition is_save (e : effect) : bool :=
  match e with SaveFile _ _ => true | _ => false end.

Definition is_exit (e : effect) : bool :=
  match e with Exit _ => true | _ => false end.

(** The characters [%.18e] prints: digits, the point, the exponent mark,
    the signs, and the letters of [inf] and [nan]. *)
Definition fmt_chars : string := "0123456789.e+-infa".

(** *** A path library for the examples *)

Definition is_dot (c : ascii) : bool := Ascii.eqb c "."%char.

Fixpoint has_dot (s : string) : bool :=
  match s with
  | EmptyString => false
  | String c r => is_dot c || has_dot r
  end.

(** A file name without its last extension. *)
Fixpoint stem (s : string) : string :=
  match s with
  | EmptyString => EmptyString
  | String c r =>
      if is_dot c && negb (has_dot r) then EmptyString else String c (stem r)
  end.

(** [with_suffix] on plain file names that have an extension. *)
Definition sample_pathlib : Pathlib :=
  {| with_suffix := fun name suffix => stem name ++ suffix |}.

(** The arrays of the example of the specification. *)
Definition sample_x : list float := [0; 1; 2]%float.
Definition sample_y : list float := [10; 20; 30]%float.

(** The three lines the specification expects for them. *)
Definition expected_plain : string :=
  "0.0,10.0" ++ newline ++ "1.0,20.0" ++ newline ++ "2.0,30.0" ++ newline.

(** The three lines [np.savetxt] writes for them. *)
Definition expected_e18 : string :=
  "0.000000000000000000e+00,1.000000000000000000e+01" ++ newline
  ++ "1.000000000000000000e+00,2.000000000000000000e+01" ++ newline
  ++ "2.000000000000000000e+00,3.000000000000000000e+01" ++ newline.

End OscopeCsv.

(** * Properties *)

Import Keysight.
Import OscopeCsv.
Open Scope py_scope.

#[local] Arguments String.append _ _ : simpl never.
#[local] Arguments Py.in_ _ _ : simpl never.
#[local] Arguments Py.neb _ _ : simpl never.
#[local] Arguments Py.str _ : simpl never.
#[local] Arguments Py.truthy_num _ : simpl never.
#[local] Arguments Py.truthy_str _ : simpl never.
#[local] Arguments timed_out _ _ : simpl never.
#[local] Arguments over_range _ _ : simpl never.
#[local] Arguments String.eqb _ _ : simpl never.
#[local] Arguments time_sleep_error _ : simpl never.
#[local] Arguments wait_error _ : simpl never.

(** ** Order on binary64 numbers *)

Section FloatOrder.

Lemma SFcompare_Lt_swap (a b : spec_float) :
  SFcompare a b = Some Lt -> SFcompare b a = Some Gt.
Proof.
  destruct a as [sa | sa | | sa ma ea], b as [sb | sb | | sb mb eb];
    simpl; try discriminate;
    try (destruct sa; discriminate || reflexivity);
    try (destruct sb; discriminate || reflexivity);
    try (destruct sa, sb; discriminate || reflexivity).
  destruct sa, sb; try discriminate; try reflexivity;
    rewrite (Z.compare_antisym ea eb);
    fold (Pos.compare mb ma); fold (Pos.compare ma mb);
    rewrite (Pos.compare_antisym ma mb);
    destruct (ea ?= eb)%Z; simpl;
    destruct (ma ?= mb)%positive; simpl; intros E; congruence.
Qed.

Lemma SFcompare_Lt_refl (a b : spec_float) :
  SFcompare a b = Some Lt -> SFcompare b b = Some Eq.
Proof.
  destruct a as [sa | sa | | sa ma ea], b as [sb | sb | | sb mb eb];
    simpl; try discriminate; try reflexivity;
    try (destruct sb; reflexivity).
  all: intros _; destruct sb; rewrite Z.compare_refl;
    fold (Pos.compare mb mb); rewrite Pos.compare_refl; reflexivity.
Qed.

(** [x < y] excludes [x >= y]. *)
Lemma ltb_not_geb (x y : float) :
  (x <? y)%float = true -> (y <=? x)%float = false.
Proof.
  rewrite ltb_spec, leb_spec. unfold SFltb, SFleb. intros E.
  destruct (SFcompare (Prim2SF x) (Prim2SF y)) as [[| |]|] eqn:C;
    try discriminate.
  now rewrite (SFcompare_Lt_swap _ _ C).
Qed.

(** A number that something lies below compares [>=] to itself (it is
    not a NaN). *)
Lemma ltb_geb_refl (x y : float) :
  (x <? y)%float = true -> (y <=? y)%float = true.
Proof.
  rewrite ltb_spec, leb_spec. unfold SFltb, SFleb. intros E.
  destruct (SFcompare (Prim2SF x) (Prim2SF y)) as [[| |]|] eqn:C;
    try discriminate.
  now rewrite (SFcompare_Lt_refl _ _ C).
Qed.

Lemma SFcompare_refl (a b : spec_float) (c : comparison) :
  SFcompare a b = Some c -> SFcompare a a = Some Eq.
Proof.
  destruct a as [sa | sa | | sa ma ea], b as [sb | sb | | sb mb eb];
    simpl; try discriminate; try reflexivity;
    try (destruct sa; reflexivity).
  all: intros _; destruct sa; rewrite Z.compare_refl;
    fold (Pos.compare ma ma); rewrite Pos.compare_refl; reflexivity.
Qed.

(** A number that compares [<=] to something compares [<=] to itself. *)
Lemma leb_refl_of_leb (x y : float) :
  (x <=? y)%float = true -> (x <=? x)%float = true.
Proof.
  rewrite !leb_spec. unfold SFleb. intros E.
  destruct (SFcompare (Prim2SF x) (Prim2SF y)) as [c |] eqn:C;
    try discriminate.
  now rewrite (SFcompare_refl _ _ _ C).
Qed.

End FloatOrder.

(** ** Counting in histories *)

Section Histories.

Lemma polls_app (a b : list Event) : polls (a ++ b) = polls a + polls b.
Proof. unfold polls, count_qnum. now rewrite filter_app, length_app. Qed.

Lemma ticks_app (a b : list Event) : ticks (a ++ b) = ticks a + ticks b.
Proof. unfold ticks. now rewrite filter_app, length_app. Qed.

Lemma count_qnum_app (cmd : string) (a b : list Event) :
  count_qnum cmd (a ++ b) = count_qnum cmd a + count_qnum cmd b.
Proof. unfold count_qnum. now rewrite filter_app, length_app. Qed.

Lemma writes_with_app (pre : string) (a b : list Event) :
  writes_with pre (a ++ b) = (writes_with pre a ++ writes_with pre b)%list.
Proof. unfold writes_with. apply flat_map_app. Qed.

Lemma rounds_S (n : nat) :
  rounds (S n) = ([Now; QueryNumber "DVM:CURRent?"] ++ rounds n)%list.
Proof. reflexivity. Qed.

Lemma polls_rounds (n : nat) : polls (rounds n) = n.
Proof.
  induction n as [| n IH]; [reflexivity |].
  rewrite rounds_S, polls_app, IH. reflexivity.
Qed.

Lemma ticks_rounds (n : nat) : ticks (rounds n) = n.
Proof.
  induction n as [| n IH]; [reflexivity |].
  rewrite rounds_S, ticks_app, IH. reflexivity.
Qed.

Lemma count_qnum_rounds (cmd : string) (n : nat) :
  String.eqb cmd "DVM:CURRent?" = false -> count_qnum cmd (rounds n) = 0.
Proof.
  intros E. induction n as [| n IH]; [reflexivity |].
  rewrite rounds_S, count_qnum_app, IH.
  unfold count_qnum. simpl. now rewrite E.
Qed.

Lemma writes_with_rounds (pre : string) (n : nat) :
  writes_with pre (rounds n) = [].
Proof.
  induction n as [| n IH]; [reflexivity |].
  rewrite rounds_S, writes_with_app, IH. reflexivity.
Qed.

End Histories.

(** ** The channel checks *)

Section ChannelChecks.
Context `{Oscilloscope} `{Bench}.

Lemma in_not_list (v : Py.value) (l : list string) :
  Py.in_ v l = true -> Py.is_list v = false.
Proof.
  unfold Py.in_. rewrite existsb_exists. intros (s & _ & E).
  destruct v; simpl in *; congruence.
Qed.

Lemma selected_not_none_list (o : obj) (c : Py.value) :
  Py.is_none c = false -> Py.is_list c = false -> selected o c = c.
Proof. unfold selected. now intros -> ->. Qed.

Lemma selected_list (o : obj) (c : Py.value) :
  Py.is_list c = true -> selected o c = channel o.
Proof. unfold selected. intros ->. now rewrite andb_false_r. Qed.

(** [_readDVM] on a selector it rejects: it raises with the channel
    selected and nothing sent. *)
Lemma readDVM_rejects fuel mode c timeout wait (s : state) :
  Py.is_list c = true
  \/ Py.in_ (selected (self s) c) (_chanAnaValidList (self s)) = false ->
  exists msg,
    _readDVM fuel mode c timeout wait s
    = Raise (Py.ValueError msg) (select c s).
Proof.
  intros Hc. unfold _readDVM, bind, get, set_channel, raise, ret, select.
  unfold selected in *.
  destruct (negb (Py.is_none c) && negb (Py.is_list c)) eqn:Esel; simpl.
  - apply andb_prop in Esel as [_ El]. apply negb_true_iff in El.
    rewrite El in *. rewrite orb_false_r.
    destruct Hc as [Hc | Hc]; [discriminate |].
    destruct (Py.is_list c) eqn:E'; [discriminate |].
    cbn. rewrite Hc. cbn. eauto.
  - destruct (Py.is_list (channel (self s)) || Py.is_list c) eqn:El.
    + destruct s as [o tr]; simpl. destruct o; simpl. eauto.
    + apply orb_false_elim in El as [_ El].
      destruct Hc as [Hc | Hc]; [congruence |].
      cbn. rewrite Hc. cbn. destruct s as [o tr]; destruct o; simpl. eauto.
Qed.

End ChannelChecks.

(** ** The two phases of [_readDVM] *)

Section ReadDVM.
Context `{Oscilloscope} `{Bench}.

Lemma with_channel_same (o : obj) : with_channel (channel o) o = o.
Proof. now destruct o. Qed.

Lemma select_trace (c : Py.value) (s : state) : trace (select c s) = trace s.
Proof. reflexivity. Qed.

Lemma select_channel (c : Py.value) (s : state) :
  channel (self (select c s)) = selected (self s) c.
Proof. reflexivity. Qed.

(** [_readDVM] on a selector it accepts: the set-up commands are sent;
    then the settle delay raises, or the clock is started and the loop runs
    from there. *)
Lemma readDVM_runs fuel mode c timeout wait (s : state) :
  Py.is_list c = false ->
  Py.in_ (selected (self s) c) (_chanAnaValidList (self s)) = true ->
  let ch := selected (self s) c in
  let h := (trace s ++ setup_events (trace s) ch mode wait)%list in
  _readDVM fuel mode c timeout wait s
  = match wait_error wait with
    | Some e => Raise e {| self := self (select c s); trace := h |}
    | None =>
        bind (poll fuel timeout (clock h) (OverRange (self s))) (after_poll mode)
          {| self := self (select c s); trace := (h ++ [Now])%list |}
    end.
Proof.
  intros Hl Hin ch h.
  assert (Hch : Py.is_list ch = false) by exact (in_not_list _ _ Hin).
  unfold _readDVM.
  assert (Esel :
    (when (negb (Py.is_none c) && negb (Py.is_list c)) then set_channel c) s
    = Ret tt (select c s)).
  { unfold select, selected, set_channel, ret.
    destruct (negb (Py.is_none c) && negb (Py.is_list c)); [reflexivity |].
    rewrite with_channel_same. now destruct s. }
  unfold bind at 1. rewrite Esel.
  unfold bind at 1. unfold get at 1. rewrite select_channel. fold ch.
  rewrite Hch, Hl. cbn [orb].
  unfold bind at 1; unfold get at 1. cbn [select self _chanAnaValidList with_channel].
  fold ch in Hin. rewrite Hin. cbn [negb].
  unfold h, setup_events, enable_events, switch_events, dvm_source, sleep_events,
    enable_events, wait_error.
  unfold bind, DVMisEnabled, enableDVM, _instQuery, _instWrite, sleep,
    datetime_now, get, ret, log. cbn.
  destruct (_1OR0 (answer (trace s) "DVM:ENABle?")); cbn;
    repeat rewrite <- app_assoc; cbn;
    destruct (Py.neb _ ch); cbn;
    destruct wait as [w |]; cbn;
    try destruct (Py.truthy_num (Some w)); cbn;
    try destruct (time_sleep_error w); cbn;
    repeat rewrite <- app_assoc; cbn; reflexivity.
Qed.

(** The same when the settle delay does not raise. *)
Lemma readDVM_accepts fuel mode c timeout wait (s : state) :
  Py.is_list c = false ->
  Py.in_ (selected (self s) c) (_chanAnaValidList (self s)) = true ->
  wait_error wait = None ->
  let ch := selected (self s) c in
  let h := (trace s ++ setup_events (trace s) ch mode wait)%list in
  _readDVM fuel mode c timeout wait s
  = bind (poll fuel timeout (clock h) (OverRange (self s))) (after_poll mode)
      {| self := self (select c s); trace := (h ++ [Now])%list |}.
Proof.
  intros Hl Hin Hw ch h.
  rewrite (readDVM_runs _ _ _ _ _ _ Hl Hin). now rewrite Hw.
Qed.

(** The loop is over as soon as the value is below the sentinel. *)
Lemma poll_valid fuel timeout start val (s : state) :
  over_range (self s) val = false ->
  poll fuel timeout start val s = Ret val s.
Proof.
  intros E. destruct fuel; cbn; unfold bind, get; now rewrite E.
Qed.

(** One round of the loop. *)
Lemma poll_round fuel timeout start val (s : state) :
  over_range (self s) val = true ->
  timed_out timeout (clock (trace s) - start) = false ->
  poll (S fuel) timeout start val s
  = poll fuel timeout start (number (trace s ++ [Now]) "DVM:CURRent?")
      {| self := self s;
         trace := (trace s ++ [Now; QueryNumber "DVM:CURRent?"])%list |}.
Proof.
  intros Eo Et. cbn [poll]. unfold bind at 1. unfold get at 1.
  rewrite Eo. cbn [negb].
  unfold bind at 1. unfold datetime_now at 1. rewrite Et.
  unfold bind at 1. unfold _instQueryNumber at 1, log. cbn.
  now rewrite <- app_assoc.
Qed.

(** The round in which the deadline has passed. *)
Lemma poll_deadline fuel timeout start val (s : state) :
  over_range (self s) val = true ->
  timed_out timeout (clock (trace s) - start) = true ->
  poll (S fuel) timeout start val s = Ret val (log Now s).
Proof.
  intros Eo Et. cbn [poll]. unfold bind at 1. unfold get at 1.
  rewrite Eo. cbn [negb].
  unfold bind at 1. unfold datetime_now at 1. now rewrite Et.
Qed.

End ReadDVM.

(** ** The polling loop in general *)

Section PollLoop.
Context `{Oscilloscope} `{Bench}.

Lemma state_eta (s : state) : {| self := self s; trace := trace s |} = s.
Proof. now destruct s. Qed.

(** The loop never raises; it leaves the object alone and adds to the
    history only rounds of clock reading and poll, and possibly the clock
    reading at which it saw the deadline passed. *)
Lemma poll_shape fuel timeout start val (s : state) :
  exists n tl,
    (tl = [] \/ tl = [Now])
    /\ final (poll fuel timeout start val s)
       = {| self := self s; trace := (trace s ++ rounds n ++ tl)%list |}
    /\ (forall e st, poll fuel timeout start val s <> Raise e st).
Proof.
  revert val s. induction fuel as [| fuel IH]; intros val s.
  - exists 0, []. split; [now left |].
    cbn [poll]. unfold bind, get, ret.
    destruct (over_range (self s) val); cbn;
      rewrite app_nil_r, state_eta; split; congruence.
  - destruct (over_range (self s) val) eqn:Eo.
    + destruct (timed_out timeout (clock (trace s) - start)) eqn:Et.
      * rewrite (poll_deadline _ _ _ _ _ Eo Et).
        exists 0, [Now]. split; [now right |]. split; [reflexivity | congruence].
      * rewrite (poll_round _ _ _ _ _ Eo Et).
        destruct (IH (number (trace s ++ [Now]) "DVM:CURRent?")
                    {| self := self s;
                       trace := (trace s ++ [Now; QueryNumber "DVM:CURRent?"])%list |})
          as (n & tl & Htl & Hf & Hr).
        exists (S n), tl. split; [exact Htl |]. split; [| exact Hr].
        rewrite Hf. cbn [self trace]. rewrite rounds_S.
        now repeat rewrite <- app_assoc.
    + rewrite (poll_valid _ _ _ _ _ Eo).
      exists 0, []. split; [now left |]. cbn.
      rewrite app_nil_r, state_eta. split; congruence.
Qed.

(** A loop that has ended within a budget ends the same way within
    every larger one. *)
Lemma poll_mono fuel k timeout start val (s : state) :
  ended (poll fuel timeout start val s) = true ->
  poll (fuel + k) timeout start val s = poll fuel timeout start val s.
Proof.
  revert val s. induction fuel as [| fuel IH]; intros val s E.
  - destruct (over_range (self s) val) eqn:Eo.
    + cbn [poll] in E. unfold bind, get in E. rewrite Eo in E. discriminate.
    + now rewrite !(poll_valid _ _ _ _ _ Eo).
  - cbn [Nat.add]. destruct (over_range (self s) val) eqn:Eo.
    + destruct (timed_out timeout (clock (trace s) - start)) eqn:Et.
      * now rewrite !(poll_deadline _ _ _ _ _ Eo Et).
      * rewrite !(poll_round _ _ _ _ _ Eo Et) in *. now apply IH.
    + now rewrite !(poll_valid _ _ _ _ _ Eo).
Qed.

End PollLoop.

(** ** The polling loop against a scripted instrument *)

Section ScriptedRuns.
Context `{Oscilloscope} `{Bench}.
Variable script : nat -> float.
Hypothesis Hscript : scripted_polls script.

(** No deadline passes during the first [N + 1] rounds, the first [N]
    polls are over range and the next one is not: the loop returns that
    reading after [N + 1] rounds. *)
Lemma poll_valid_exit (N : nat) :
  forall fuel timeout start val (s : state),
    N < fuel ->
    over_range (self s) val = true ->
    (forall i, i <= N ->
       forall h, ticks h = ticks (trace s) + i ->
                 timed_out timeout (clock h - start) = false) ->
    (forall i, i < N ->
       over_range (self s) (script (polls (trace s) + i)) = true) ->
    over_range (self s) (script (polls (trace s) + N)) = false ->
    poll fuel timeout start val s
    = Ret (script (polls (trace s) + N))
        {| self := self s; trace := (trace s ++ rounds (S N))%list |}.
Proof.
  induction N as [| N IH]; intros fuel timeout start val s Hf Hval Ht Hover Hv;
    (destruct fuel as [| fuel]; [lia |]).
  - rewrite poll_round; [| exact Hval | apply (Ht 0); lia].
    rewrite Hscript, polls_app. cbn [polls count_qnum filter Event_eqb List.length].
    rewrite poll_valid; [reflexivity | exact Hv].
  - rewrite poll_round; [| exact Hval | apply (Ht 0); lia].
    rewrite Hscript, polls_app. cbn [polls count_qnum filter Event_eqb List.length].
    rewrite (IH fuel); cbn [self trace].
    + rewrite polls_app. replace (polls [Now; QueryNumber "DVM:CURRent?"]) with 1
        by reflexivity.
      rewrite rounds_S with (n := S N), <- app_assoc.
      f_equal. f_equal. lia.
    + lia.
    + apply (Hover 0). lia.
    + intros i Hi h Hh. apply (Ht (S i)); [lia |].
      rewrite Hh, ticks_app.
      replace (ticks [Now; QueryNumber "DVM:CURRent?"]) with 1 by reflexivity. lia.
    + intros i Hi. rewrite polls_app.
      replace (polls [Now; QueryNumber "DVM:CURRent?"]) with 1 by reflexivity.
      replace (polls (trace s) + 1 + i) with (polls (trace s) + S i) by lia.
      apply Hover. lia.
    + rewrite polls_app.
      replace (polls [Now; QueryNumber "DVM:CURRent?"]) with 1 by reflexivity.
      replace (polls (trace s) + 1 + N) with (polls (trace s) + S N) by lia.
      exact Hv.
Qed.

(** The first [N] polls are over range and the deadline has passed at
    the clock reading that follows them (and at none before): the loop
    returns the value it holds after [N] rounds and that reading. *)
Lemma poll_timeout_exit (N : nat) :
  forall fuel timeout start val (s : state),
    N < fuel ->
    over_range (self s) val = true ->
    (forall i, i < N ->
       forall h, ticks h = ticks (trace s) + i ->
                 timed_out timeout (clock h - start) = false) ->
    (forall h, ticks h = ticks (trace s) + N ->
               timed_out timeout (clock h - start) = true) ->
    (forall i, i < N ->
       over_range (self s) (script (polls (trace s) + i)) = true) ->
    poll fuel timeout start val s
    = Ret (last_seen script val (polls (trace s)) N)
        {| self := self s; trace := (trace s ++ rounds N ++ [Now])%list |}.
Proof.
  induction N as [| N IH]; intros fuel timeout start val s Hf Hval Ht Hd Hover;
    (destruct fuel as [| fuel]; [lia |]).
  - rewrite poll_deadline; [reflexivity | exact Hval |].
    apply Hd. lia.
  - rewrite poll_round; [| exact Hval | apply (Ht 0); lia].
    rewrite Hscript, polls_app. cbn [polls count_qnum filter Event_eqb List.length].
    rewrite (IH fuel); cbn [self trace].
    + rewrite polls_app. replace (polls [Now; QueryNumber "DVM:CURRent?"]) with 1
        by reflexivity.
      rewrite rounds_S with (n := N), <- !app_assoc.
      f_equal. destruct N as [| N]; cbn [last_seen]; f_equal; lia.
    + lia.
    + apply (Hover 0). lia.
    + intros i Hi h Hh. apply (Ht (S i)); [lia |].
      rewrite Hh, ticks_app.
      replace (ticks [Now; QueryNumber "DVM:CURRent?"]) with 1 by reflexivity. lia.
    + intros h Hh. apply Hd. rewrite Hh, ticks_app.
      replace (ticks [Now; QueryNumber "DVM:CURRent?"]) with 1 by reflexivity. lia.
    + intros i Hi. rewrite polls_app.
      replace (polls [Now; QueryNumber "DVM:CURRent?"]) with 1 by reflexivity.
      replace (polls (trace s) + 1 + i) with (polls (trace s) + S i) by lia.
      apply Hover. lia.
Qed.

End ScriptedRuns.

(** ** What the set-up of [_readDVM] sends *)

Section Setup.
Context `{Oscilloscope} `{Bench}.

Lemma polls_setup h ch mode wait : polls (setup_events h ch mode wait) = 0.
Proof.
  unfold setup_events, enable_events, switch_events, sleep_events.
  destruct (_1OR0 _), (Py.neb _ _), wait as [w |];
    try destruct (Py.truthy_num (Some w)); try destruct (time_sleep_error w);
    reflexivity.
Qed.

Lemma ticks_setup h ch mode wait : ticks (setup_events h ch mode wait) = 0.
Proof.
  unfold setup_events, enable_events, switch_events, sleep_events.
  destruct (_1OR0 _), (Py.neb _ _), wait as [w |];
    try destruct (Py.truthy_num (Some w)); try destruct (time_sleep_error w);
    reflexivity.
Qed.

Lemma count_freq_setup h ch mode wait :
  count_qnum "DVM:FREQ?" (setup_events h ch mode wait) = 0.
Proof.
  unfold setup_events, enable_events, switch_events, sleep_events.
  destruct (_1OR0 _), (Py.neb _ _), wait as [w |];
    try destruct (Py.truthy_num (Some w)); try destruct (time_sleep_error w);
    reflexivity.
Qed.

Lemma source_writes_setup h ch mode wait :
  writes_with "DVM:SOURce" (setup_events h ch mode wait)
  = if Py.neb (_chanNumber (dvm_source h)) ch
    then ["DVM:SOURce " ++ channelStr ch] else [].
Proof.
  unfold setup_events, enable_events, switch_events, sleep_events.
  destruct (_1OR0 _), (Py.neb _ _), wait as [w |];
    try destruct (Py.truthy_num (Some w)); try destruct (time_sleep_error w);
    reflexivity.
Qed.

End Setup.

(** ** The DVM reading *)

(** C1.  Against a scripted instrument whose first [N] polls of
    [DVM:CURRent?] are over range and whose next poll is strictly below the
    sentinel, [_readDVM] with no timeout, a mode other than FREQ and a
    settle delay that [time.sleep] takes returns that reading, having
    polled exactly [N + 1] times; a budget of [N + 1] rounds is enough for
    the loop. *)
Theorem readDVM_returns_first_valid_reading `{Oscilloscope} `{Bench}
    (script : nat -> float) (N fuel : nat) (mode : string) (c : Py.value)
    (wait : option float) (s : state) :
  scripted_polls script ->
  Py.is_list c = false ->
  Py.in_ (selected (self s) c) (_chanAnaValidList (self s)) = true ->
  String.eqb mode "FREQ" = false ->
  wait_error wait = None ->
  (forall i, i < N -> over_range (self s) (script (polls (trace s) + i)) = true) ->
  (script (polls (trace s) + N)%nat <? OverRange (self s))%float = true ->
  N < fuel ->
  exists s',
    _readDVM fuel mode c None wait s = Ret (script (polls (trace s) + N)) s'
    /\ trace s'
       = (trace s ++ setup_events (trace s) (selected (self s) c) mode wait
          ++ Now :: rounds (S N))%list
    /\ polls (trace s') = polls (trace s) + (N + 1).
Proof.
  intros Hscript Hl Hin Hmode Hw Hover Hv Hfuel.
  rewrite (readDVM_accepts _ _ _ _ _ _ Hl Hin Hw).
  set (h := (trace s ++ setup_events (trace s) (selected (self s) c) mode wait)%list).
  assert (Hp : polls (h ++ [Now]) = polls (trace s)).
  { unfold h. rewrite !polls_app, polls_setup. cbn. lia. }
  unfold bind.
  rewrite (poll_valid_exit script Hscript N); cbn [self trace select].
  - unfold after_poll. rewrite Hmode. unfold ret. rewrite Hp.
    eexists. split; [reflexivity |]. cbn [trace]. split.
    + unfold h. now rewrite <- !app_assoc.
    + rewrite polls_app, Hp, polls_rounds. lia.
  - exact Hfuel.
  - unfold over_range. cbn. exact (ltb_geb_refl _ _ Hv).
  - reflexivity.
  - intros i Hi. rewrite Hp. apply Hover, Hi.
  - rewrite Hp. unfold over_range. cbn. exact (ltb_not_geb _ _ Hv).
Qed.

(** An instance: two over-range polls, then 1.25 on the third. *)
Lemma readDVM_returns_first_valid_reading_witness :
  exists s',
    @_readDVM sample_scope (sample_bench 2) 3 "DC" (Py.Str "1") None
      (Some 0.5%float) sample_state
    = Ret 1.25%float s'
    /\ trace s'
       = [Query "DVM:ENABle?"; Query "DVM:SOURce?"; Write "DVM:SOURce CHAN1";
          Write "DVM:MODE DC"; Sleep 0.5; Now;
          Now; QueryNumber "DVM:CURRent?";
          Now; QueryNumber "DVM:CURRent?";
          Now; QueryNumber "DVM:CURRent?"]
    /\ polls (trace s') = 3.
Proof.
  apply (@readDVM_returns_first_valid_reading sample_scope (sample_bench 2)
           (fun k => if (k <? 2)%nat then sentinel else 1.25%float)
           2 3 "DC" (Py.Str "1") (Some 0.5%float) sample_state).
  - intros h. reflexivity.
  - reflexivity.
  - reflexivity.
  - reflexivity.
  - reflexivity.
  - intros [| [| i]] Hi; [reflexivity | reflexivity | lia].
  - reflexivity.
  - lia.
Defined.

(** X18.  In the modes other than FREQ the timeout is silent.  Against a
    scripted instrument and clock, with a numeric timeout and a settle delay
    that [time.sleep] takes: when the first [N] polls are over range and the
    deadline has passed at the clock reading that follows them (and at none
    before), [_readDVM] returns normally, with the value it saw last (the
    reading of the last poll, or the sentinel it began with when there was
    no poll), after exactly [N] polls. *)
Theorem readDVM_timeout_returns_last_seen `{Oscilloscope} `{Bench}
    (script : nat -> float) (time : nat -> Z) (N fuel : nat) (mode : string)
    (c : Py.value) (T : float) (wait : option float) (s : state) :
  scripted_polls script ->
  scripted_clock time ->
  Py.is_list c = false ->
  Py.in_ (selected (self s) c) (_chanAnaValidList (self s)) = true ->
  String.eqb mode "FREQ" = false ->
  wait_error wait = None ->
  (forall i, i < N ->
     timed_out (Some T) (time (ticks (trace s) + 1 + i) - time (ticks (trace s)))
     = false) ->
  timed_out (Some T) (time (ticks (trace s) + 1 + N) - time (ticks (trace s)))
  = true ->
  (forall i, i < N -> over_range (self s) (script (polls (trace s) + i)) = true) ->
  N < fuel ->
  exists s',
    _readDVM fuel mode c (Some T) wait s
    = Ret (last_seen script (OverRange (self s)) (polls (trace s)) N) s'
    /\ polls (trace s') = polls (trace s) + N
    /\ (0 < N ->
        over_range (self s)
          (last_seen script (OverRange (self s)) (polls (trace s)) N) = true).
Proof.
  intros Hscript Hclock Hl Hin Hmode Hw Ht Hd Hover Hfuel.
  rewrite (readDVM_accepts _ _ _ _ _ _ Hl Hin Hw).
  set (h := (trace s ++ setup_events (trace s) (selected (self s) c) mode wait)%list).
  assert (Hp : polls (h ++ [Now]) = polls (trace s)).
  { unfold h. rewrite !polls_app, polls_setup. cbn. lia. }
  assert (Hk : ticks h = ticks (trace s)).
  { unfold h. rewrite ticks_app, ticks_setup. lia. }
  assert (Hk' : ticks (h ++ [Now]) = ticks (trace s) + 1).
  { rewrite ticks_app, Hk. reflexivity. }
  assert (Hlast : 0 < N ->
            over_range (self s)
              (last_seen script (OverRange (self s)) (polls (trace s)) N) = true).
  { destruct N as [| n]; [lia |]. intros _. cbn [last_seen]. apply Hover. lia. }
  unfold bind.
  destruct (over_range (self s) (OverRange (self s))) eqn:Eo.
  - rewrite (poll_timeout_exit script Hscript N); cbn [self trace select].
    + unfold after_poll. rewrite Hmode. unfold ret. rewrite Hp.
      eexists. split; [reflexivity |]. cbn [trace]. split; [| exact Hlast].
      rewrite !polls_app, polls_rounds. fold (polls (h ++ [Now])) in Hp.
      rewrite polls_app in Hp. cbn in *. lia.
    + exact Hfuel.
    + exact Eo.
    + intros i Hi h' Hh'. rewrite !Hclock, Hh', Hk', Hk. now apply Ht.
    + intros h' Hh'. rewrite !Hclock, Hh', Hk', Hk. exact Hd.
    + intros i Hi. rewrite Hp. now apply Hover.
  - destruct N as [| n].
    + rewrite poll_valid by exact Eo.
      unfold after_poll. rewrite Hmode. unfold ret. cbn [last_seen].
      eexists. split; [reflexivity |]. cbn [trace]. split; [lia | exact Hlast].
    + unfold over_range in *.
      rewrite (leb_refl_of_leb _ _ (Hover 0 ltac:(lia))) in Eo. discriminate.
Qed.

(** An instance: every poll is over range, the clock advances by one
    second per reading and the timeout is 2.5 s; the call returns the
    sentinel after two polls. *)
Lemma readDVM_timeout_returns_last_seen_witness :
  exists s',
    @_readDVM sample_scope (sample_bench 9) 3 "DC" (Py.Str "1")
      (Some 2.5%float) None sample_state
    = Ret sentinel s'
    /\ polls (trace s') = 2
    /\ (0 < 2 -> over_range sample_obj sentinel = true).
Proof.
  apply (@readDVM_timeout_returns_last_seen sample_scope (sample_bench 9)
           (fun k => if (k <? 9)%nat then sentinel else 1.25%float)
           (fun k => (1000000 * Z.of_nat k)%Z)
           2 3 "DC" (Py.Str "1") 2.5%float None sample_state).
  - intros h. reflexivity.
  - intros h. reflexivity.
  - reflexivity.
  - reflexivity.
  - reflexivity.
  - reflexivity.
  - intros [| [| i]] Hi; [reflexivity | reflexivity | lia].
  - reflexivity.
  - intros [| [| i]] Hi; [reflexivity | reflexivity | lia].
  - lia.
Defined.

(** C2 fails in mode FREQ, where the code also breaks the promise of its
    own docstring ([measureDVMfreq]: if timeout, returns self.OverRange)
    and of the comment above the second query.  The instrument answers every
    poll with the sentinel and the deadline of 2.5 s passes after two polls,
    yet the call returns 1000, the reply to [DVM:FREQ?], which is no
    sentinel. *)
Lemma readDVM_timeout_freq_not_sentinel :
  (forall h, polls h < 9 ->
     over_range sample_obj (@number (sample_bench 9) h "DVM:CURRent?") = true)
  /\ exists s',
       @_readDVM sample_scope (sample_bench 9) 5 "FREQ" (Py.Str "1")
         (Some 2.5%float) None sample_state
       = Ret 1000%float s'
       /\ trace s'
          = [Query "DVM:ENABle?"; Query "DVM:SOURce?";
             Write "DVM:SOURce CHAN1"; Write "DVM:MODE FREQ";
             Now;
             Now; QueryNumber "DVM:CURRent?";
             Now; QueryNumber "DVM:CURRent?";
             Now; QueryNumber "DVM:FREQ?"]
       /\ over_range sample_obj 1000 = false.
Proof.
  split.
  - intros h Hh. apply Nat.ltb_lt in Hh.
    change (@number (sample_bench 9) h "DVM:CURRent?")
      with (if (polls h <? 9)%nat then sentinel else 1.25%float).
    rewrite Hh. reflexivity.
  - eexists. split; [vm_compute; reflexivity |]. split; reflexivity.
Qed.

(** ** The scalar measurement *)

Section Measure.
Context `{Oscilloscope} `{Bench}.

Lemma select_when (c : Py.value) (s : state) :
  (when (negb (Py.is_none c) && negb (Py.is_list c)) then set_channel c) s
  = Ret tt (select c s).
Proof.
  unfold select, selected, set_channel, ret.
  destruct (negb (Py.is_none c) && negb (Py.is_list c)); [reflexivity |].
  rewrite with_channel_same. now destruct s.
Qed.

Lemma rejected_list_or_absent (c : Py.value) (s : state) (valid : list string) :
  Py.is_list c = true \/ Py.in_ (selected (self s) c) valid = false ->
  Py.is_list (selected (self s) c) || Py.is_list c = true
  \/ (Py.is_list (selected (self s) c) || Py.is_list c = false
      /\ Py.in_ (selected (self s) c) valid = false).
Proof.
  intros [Hc | Hc].
  - left. rewrite Hc. apply orb_true_r.
  - destruct (Py.is_list (selected (self s) c) || Py.is_list c); auto.
Qed.

(** [_measure] on a selector it rejects: it raises with the channel
    selected and nothing sent. *)
Lemma measure_rejects mode para c wait install (s : state) :
  Py.is_list c = true
  \/ Py.in_ (selected (self s) c) (_chanAllValidList (self s)) = false ->
  exists msg,
    _measure mode para c wait install s
    = Raise (Py.ValueError msg) (select c s).
Proof.
  intros Hc. apply rejected_list_or_absent in Hc.
  unfold _measure. unfold bind at 1. rewrite select_when.
  unfold bind at 1. unfold get at 1. rewrite select_channel.
  destruct Hc as [-> | [-> Hc]]; [unfold raise; eauto |].
  unfold bind at 1. unfold get at 1.
  cbn [select self _chanAllValidList with_channel].
  rewrite Hc. unfold raise. cbn. eauto.
Qed.

(** [_measure] on a selector it accepts: the source is asked for (and
    switched), the measurement installed if asked, the settle delay slept,
    and one measurement query sent, whose reply is read as a float.  A
    settle delay that [time.sleep] refuses ends the call before the
    query. *)
Lemma measure_runs mode para c wait install (s : state) :
  Py.is_list c = false ->
  Py.in_ (selected (self s) c) (_chanAllValidList (self s)) = true ->
  let ch := selected (self s) c in
  let h := (trace s ++ Query "MEASure:SOURce?"
            :: measure_events (trace s) ch mode para wait install)%list in
  let s' := {| self := self (select c s);
               trace := (h ++ [Query (measure_query mode para)])%list |} in
  _measure mode para c wait install s
  = match wait_error wait with
    | Some e => Raise e {| self := self (select c s); trace := h |}
    | None =>
        match float_of_str (answer h (measure_query mode para)) with
        | Some f => Ret f s'
        | None =>
            Raise (Py.ValueError
                     ("could not convert string to float: '"
                      ++ answer h (measure_query mode para) ++ "'")) s'
        end
    end.
Proof.
  intros Hl Hin ch h s'.
  assert (Hch : Py.is_list ch = false) by exact (in_not_list _ _ Hin).
  unfold _measure. unfold bind at 1. rewrite select_when.
  unfold bind at 1. unfold get at 1. rewrite select_channel. fold ch.
  rewrite Hch, Hl. cbn [orb].
  unfold bind at 1; unfold get at 1.
  cbn [select self _chanAllValidList with_channel].
  fold ch in Hin. rewrite Hin. cbn [negb].
  unfold s', h, measure_events, measure_query, measure_command, sleep_events,
    wait_error.
  unfold bind, _instQuery, _instWrite, sleep, get, ret, raise, log. cbn.
  destruct (Py.neb (Py.Str (answer (trace s) "MEASure:SOURce?")) ch); cbn;
    destruct install; cbn;
    destruct wait as [w |]; cbn;
    try destruct (Py.truthy_num (Some w)); cbn;
    try destruct (time_sleep_error w); cbn;
    repeat rewrite <- app_assoc; cbn;
    try reflexivity;
    destruct para as [p |]; try destruct (Py.truthy_str (Some p)); cbn;
    match goal with
    | |- context [float_of_str ?r] => destruct (float_of_str r)
    end; reflexivity.
Qed.

Lemma measure_accepts mode para c wait install (s : state) :
  Py.is_list c = false ->
  Py.in_ (selected (self s) c) (_chanAllValidList (self s)) = true ->
  wait_error wait = None ->
  let ch := selected (self s) c in
  let h := (trace s ++ Query "MEASure:SOURce?"
            :: measure_events (trace s) ch mode para wait install)%list in
  let s' := {| self := self (select c s);
               trace := (h ++ [Query (measure_query mode para)])%list |} in
  _measure mode para c wait install s
  = match float_of_str (answer h (measure_query mode para)) with
    | Some f => Ret f s'
    | None =>
        Raise (Py.ValueError
                 ("could not convert string to float: '"
                  ++ answer h (measure_query mode para) ++ "'")) s'
    end.
Proof.
  intros Hl Hin Hw ch h s'.
  pose proof (measure_runs mode para c wait install s Hl Hin) as E.
  cbv zeta in E. rewrite Hw in E. exact E.
Qed.

End Measure.

(** ** Rejection of invalid channels *)

(** C3, as amended.  Each family of entry points rejects, before any
    write or query, every selector its own check refuses: [_readDVM] and
    the [measureDVM*] wrappers check against the list of analog channels
    (['1'], ['2'], ...), [_measure] and the [measure*] wrappers against the
    list of all channels ([CHAN<n>], [POD1], [POD2]).  A list is refused by
    both. *)
Theorem entry_points_reject_before_io `{Oscilloscope} `{Bench}
    (c : Py.value) (s : state) :
  (refused (_chanAnaValidList (self s)) c s ->
   (forall fuel mode timeout wait,
      rejected (_readDVM fuel mode c timeout wait s) s)
   /\ Forall (fun f => forall fuel timeout wait,
                rejected (f fuel c timeout wait s) s) measureDVM_wrappers)
  /\ (refused (_chanAllValidList (self s)) c s ->
      (forall mode para wait install,
         rejected (_measure mode para c wait install s) s)
      /\ Forall (fun f => forall wait install,
                   rejected (f c wait install s) s) measure_wrappers).
Proof.
  split; intros Hc.
  - assert (R : forall fuel mode timeout wait,
               rejected (_readDVM fuel mode c timeout wait s) s).
    { intros fuel mode timeout wait.
      destruct (readDVM_rejects fuel mode c timeout wait s Hc) as [msg E].
      exists msg, (select c s). now split. }
    split; [exact R |].
    unfold measureDVM_wrappers.
    repeat (constructor; [intros; apply R |]). constructor.
  - assert (R : forall mode para wait install,
               rejected (_measure mode para c wait install s) s).
    { intros mode para wait install.
      destruct (measure_rejects mode para c wait install s Hc) as [msg E].
      exists msg, (select c s). now split. }
    split; [exact R |].
    unfold measure_wrappers.
    repeat (constructor; [intros; apply R |]). constructor.
Qed.

(** An instance: [measureDVMdc] rejects ['POD1'], [measureVoltPP] rejects
    a list. *)
Lemma entry_points_reject_before_io_witness :
  rejected (@measureDVMdc sample_scope (sample_bench 0) 1 (Py.Str "POD1")
              None None sample_state) sample_state
  /\ rejected (@measureVoltPP (sample_bench 0) (Py.List [Py.Str "CHAN1"])
                 None false sample_state) sample_state.
Proof.
  destruct (@entry_points_reject_before_io sample_scope (sample_bench 0)
              (Py.Str "POD1") sample_state) as [Hdvm _].
  destruct (@entry_points_reject_before_io sample_scope (sample_bench 0)
              (Py.List [Py.Str "CHAN1"]) sample_state) as [_ Hall].
  split.
  - destruct Hdvm as [_ Hw]; [right; reflexivity |].
    exact (Forall_inv (Forall_inv_tail Hw) 1 None None).
  - destruct Hall as [Hm _]; [left; reflexivity |].
    exact (Hm "VPP" None None false).
Defined.

(** C3, as stated, fails for [_measure]: ['POD1'] is not in the list of
    analog channels of a four-channel instrument, yet [_measure] and its
    wrapper [measureVoltPP] accept it and talk to the instrument. *)
Lemma measure_accepts_pod_selector :
  Py.in_ (Py.Str "POD1") (_chanAnaValidList sample_obj) = false
  /\ @_measure (sample_bench 0) "VPP" None (Py.Str "POD1") None false
       sample_state
     = Ret sentinel
         {| self := with_channel (Py.Str "POD1") sample_obj;
            trace := [Query "MEASure:SOURce?"; Write "MEASure:SOURce POD1";
                      Query "MEASure:VPP?"] |}
  /\ @measureVoltPP (sample_bench 0) (Py.Str "POD1") None false sample_state
     = Ret sentinel
         {| self := with_channel (Py.Str "POD1") sample_obj;
            trace := [Query "MEASure:SOURce?"; Write "MEASure:SOURce POD1";
                      Query "MEASure:VPP?"] |}.
Proof. repeat split; vm_compute; reflexivity. Qed.

(** C10.  A channel argument that is passed (not [None]), is not a list
    and is not in the valid list becomes the current channel before the
    call raises [ValueError]; nothing is sent; and a later call that passes
    no channel raises as well.  The valid list is that of analog channels
    for [_readDVM] and that of all channels for [_measure]. *)
Theorem invalid_channel_is_kept `{Oscilloscope} `{Bench}
    (c : Py.value) (s : state) :
  Py.is_none c = false ->
  Py.is_list c = false ->
  let s1 := {| self := with_channel c (self s); trace := trace s |} in
  (Py.in_ c (_chanAnaValidList (self s)) = false ->
   forall fuel mode timeout wait,
     (exists msg, _readDVM fuel mode c timeout wait s = Raise (Py.ValueError msg) s1)
     /\ forall fuel' mode' timeout' wait',
          exists msg,
            _readDVM fuel' mode' Py.None_ timeout' wait' s1
            = Raise (Py.ValueError msg) s1)
  /\ (Py.in_ c (_chanAllValidList (self s)) = false ->
      forall mode para wait install,
        (exists msg,
           _measure mode para c wait install s = Raise (Py.ValueError msg) s1)
        /\ forall mode' para' wait' install',
             exists msg,
               _measure mode' para' Py.None_ wait' install' s1
               = Raise (Py.ValueError msg) s1).
Proof.
  intros Hn Hl s1.
  assert (E1 : select c s = s1).
  { unfold select. now rewrite (selected_not_none_list _ _ Hn Hl). }
  assert (E2 : select Py.None_ s1 = s1).
  { unfold select, selected. cbn. unfold s1. cbn.
    reflexivity. }
  split; intros Hin.
  - intros fuel mode timeout wait. split.
    + rewrite <- E1. apply readDVM_rejects. right.
      now rewrite (selected_not_none_list _ _ Hn Hl).
    + intros fuel' mode' timeout' wait'.
      destruct (readDVM_rejects fuel' mode' Py.None_ timeout' wait' s1
                  (or_intror Hin)) as [msg E].
      exists msg. now rewrite E, E2.
  - intros mode para wait install. split.
    + rewrite <- E1. apply measure_rejects. right.
      now rewrite (selected_not_none_list _ _ Hn Hl).
    + intros mode' para' wait' install'.
      destruct (measure_rejects mode' para' Py.None_ wait' install' s1
                  (or_intror Hin)) as [msg E].
      exists msg. now rewrite E, E2.
Qed.

(** An instance: the integer 1 (instead of the string ['1']). *)
Lemma invalid_channel_is_kept_witness :
  let s1 := {| self := with_channel (Py.Int 1) sample_obj; trace := [] |} in
  ((exists msg,
      @_readDVM sample_scope (sample_bench 0) 1 "DC" (Py.Int 1) None None
        sample_state
      = Raise (Py.ValueError msg) s1)
   /\ forall fuel' mode' timeout' wait',
        exists msg,
          @_readDVM sample_scope (sample_bench 0) fuel' mode' Py.None_
            timeout' wait' s1
          = Raise (Py.ValueError msg) s1)
  /\ ((exists msg,
         @_measure (sample_bench 0) "VPP" None (Py.Int 1) None false sample_state
         = Raise (Py.ValueError msg) s1)
      /\ forall mode' para' wait' install',
           exists msg,
             @_measure (sample_bench 0) mode' para' Py.None_ wait' install' s1
             = Raise (Py.ValueError msg) s1).
Proof.
  destruct (@invalid_channel_is_kept sample_scope (sample_bench 0)
              (Py.Int 1) sample_state) as [Hdvm Hall];
    [reflexivity | reflexivity |].
  split.
  - apply (Hdvm ltac:(reflexivity) 1 "DC" None None).
  - apply (Hall ltac:(reflexivity) "VPP" None None false).
Defined.

(** ** Source switching and the frequency counter *)

Section ReadDVMTrace.
Context `{Oscilloscope} `{Bench}.

(** The loop, when it has ended, has returned. *)
Lemma poll_ended fuel timeout start val (s : state) :
  ended (poll fuel timeout start val s) = true ->
  exists n tl val',
    (tl = [] \/ tl = [Now])
    /\ poll fuel timeout start val s
       = Ret val' {| self := self s; trace := (trace s ++ rounds n ++ tl)%list |}.
Proof.
  intros E.
  destruct (poll_shape fuel timeout start val s) as (n & tl & Htl & Hf & Hr).
  exists n, tl.
  destruct (poll fuel timeout start val s) as [v st | e st | st];
    cbn in Hf, E; subst.
  - exists v. now split.
  - now destruct (Hr e
      {| self := self s; trace := (trace s ++ rounds n ++ tl)%list |}).
  - discriminate.
Qed.

Lemma writes_app (a b : list Event) :
  writes (a ++ b) = (writes a ++ writes b)%list.
Proof. unfold writes. apply flat_map_app. Qed.

Lemma sleeps_app (a b : list Event) :
  sleeps (a ++ b) = (sleeps a ++ sleeps b)%list.
Proof. unfold sleeps. apply flat_map_app. Qed.

Lemma writes_rounds (n : nat) : writes (rounds n) = [].
Proof.
  induction n as [| n IH]; [reflexivity |].
  rewrite rounds_S, writes_app, IH. reflexivity.
Qed.

Lemma sleeps_rounds (n : nat) : sleeps (rounds n) = [].
Proof.
  induction n as [| n IH]; [reflexivity |].
  rewrite rounds_S, sleeps_app, IH. reflexivity.
Qed.

(** The loop and the frequency query write nothing and sleep nowhere. *)
Lemma polling_is_quiet (n : nat) (tl fq : list Event) :
  tl = [] \/ tl = [Now] ->
  fq = [] \/ fq = [QueryNumber "DVM:FREQ?"] ->
  (forall pre, writes_with pre (Now :: rounds n ++ tl ++ fq) = [])
  /\ writes (Now :: rounds n ++ tl ++ fq) = []
  /\ sleeps (Now :: rounds n ++ tl ++ fq) = [].
Proof.
  intros Htl Hfq.
  change (Now :: rounds n ++ tl ++ fq)%list
    with ([Now] ++ rounds n ++ tl ++ fq)%list.
  split; [intros pre | split].
  - rewrite !writes_with_app, writes_with_rounds.
    destruct Htl as [-> | ->], Hfq as [-> | ->]; reflexivity.
  - rewrite !writes_app, writes_rounds.
    destruct Htl as [-> | ->], Hfq as [-> | ->]; reflexivity.
  - rewrite !sleeps_app, sleeps_rounds.
    destruct Htl as [-> | ->], Hfq as [-> | ->]; reflexivity.
Qed.

(** Everything a call of [_readDVM] on an accepted selector has sent
    when it stops, however it stops: the set-up, and then, unless the
    settle delay raised, the polling, in which nothing is written and
    nothing slept. *)
Lemma readDVM_final_trace fuel mode c timeout wait (s : state) :
  Py.is_list c = false ->
  Py.in_ (selected (self s) c) (_chanAnaValidList (self s)) = true ->
  exists rest,
    trace (final (_readDVM fuel mode c timeout wait s))
    = (trace s ++ setup_events (trace s) (selected (self s) c) mode wait
       ++ rest)%list
    /\ (forall pre, writes_with pre rest = [])
    /\ writes rest = []
    /\ sleeps rest = [].
Proof.
  intros Hl Hin.
  pose proof (readDVM_runs fuel mode c timeout wait s Hl Hin) as E.
  cbv zeta in E. rewrite E. clear E.
  destruct (wait_error wait) as [e |].
  { exists []. cbn [final trace]. rewrite app_nil_r. auto. }
  set (h := (trace s ++ setup_events (trace s) (selected (self s) c) mode wait)%list).
  set (s1 := {| self := self (select c s); trace := (h ++ [Now])%list |}).
  destruct (poll_shape fuel timeout (clock h) (OverRange (self s)) s1)
    as (n & tl & Htl & Hf & Hr).
  assert (Q : forall fq, fq = [] \/ fq = [QueryNumber "DVM:FREQ?"] ->
            exists rest,
              (trace s1 ++ rounds n ++ tl ++ fq
               = trace s ++ setup_events (trace s) (selected (self s) c) mode wait
                 ++ rest)%list
              /\ (forall pre, writes_with pre rest = [])
              /\ writes rest = [] /\ sleeps rest = []).
  { intros fq Hfq. exists (Now :: rounds n ++ tl ++ fq)%list. split.
    - unfold s1, h. cbn [trace]. now rewrite <- !app_assoc.
    - now apply polling_is_quiet. }
  unfold bind.
  destruct (poll fuel timeout (clock h) (OverRange (self s)) s1)
    as [v st | e st | st]; cbn [final] in Hf; subst st.
  - unfold after_poll, _instQueryNumber, ret, log.
    destruct (String.eqb mode "FREQ"); cbn [final trace self].
    + destruct (Q [QueryNumber "DVM:FREQ?"]) as (rest & E & R); [now right |].
      exists rest. split; [| exact R]. rewrite <- E. now rewrite <- !app_assoc.
    + destruct (Q []) as (rest & E & R); [now left |].
      exists rest. split; [| exact R]. rewrite <- E. now rewrite !app_nil_r.
  - now destruct (Hr e
      {| self := self s1; trace := (trace s1 ++ rounds n ++ tl)%list |}).
  - destruct (Q []) as (rest & E & R); [now left |].
    exists rest. split; [| exact R]. cbn [final trace]. rewrite <- E.
    now rewrite !app_nil_r.
Qed.

(** What a number-returning parser makes of a reply never equals an
    accepted channel, which is a string. *)
Lemma number_differs_from_accepted (v ch : Py.value) (valid : list string) :
  Py.is_int v = true -> Py.in_ ch valid = true -> Py.neb v ch = true.
Proof.
  intros Hv Hin. unfold Py.in_ in Hin.
  apply existsb_exists in Hin. destruct Hin as (t & _ & E).
  destruct v; try discriminate. now destruct ch.
Qed.

Lemma ended_bind {A B} (m : M A) (k : A -> M B) (s : state) :
  ended (bind m k s) = true -> ended (m s) = true.
Proof. unfold bind. now destruct (m s). Qed.

End ReadDVMTrace.

(** C4.  The code does not do what the claim, and its own comment above
    the test, say.  The test compares what the parser [_chanNumber] makes
    of the reply to [DVM:SOURce?] with [self.channel], and an accepted
    channel is one of the strings of [_chanAnaValidList].  With a parser
    that returns a number the two are never equal: on an accepted channel
    [_readDVM] writes the source switch on every call, once, whatever the
    reply, also when the reply names the requested channel. *)
Theorem readDVM_switches_source_on_every_call `{Oscilloscope} `{Bench}
    (fuel : nat) (mode : string) (c : Py.value) (timeout wait : option float)
    (s : state) :
  (forall reply, Py.is_int (_chanNumber reply) = true) ->
  Py.is_list c = false ->
  Py.in_ (selected (self s) c) (_chanAnaValidList (self s)) = true ->
  let ch := selected (self s) c in
  exists sent,
    trace (final (_readDVM fuel mode c timeout wait s)) = (trace s ++ sent)%list
    /\ writes_with "DVM:SOURce" sent = ["DVM:SOURce " ++ channelStr ch].
Proof.
  intros Hint Hl Hin ch.
  destruct (readDVM_final_trace fuel mode c timeout wait s Hl Hin)
    as (rest & E & W & _).
  eexists. split; [exact E |].
  rewrite writes_with_app, W, app_nil_r, source_writes_setup.
  fold ch.
  now rewrite (number_differs_from_accepted _ _ _ (Hint _) Hin).
Qed.

(** The failing input: the instrument reports [CHAN1] as the source of
    its DVM, which the parser reads as channel 1, and channel ['1'] is
    asked for; the source is switched all the same. *)
Lemma readDVM_switches_source_on_every_call_witness :
  @answer (sample_bench 1) [] "DVM:SOURce?" = "CHAN1"
  /\ @_chanNumber sample_scope "CHAN1" = Py.Int 1
  /\ exists sent,
       trace (final (@_readDVM sample_scope (sample_bench 1) 4 "DC"
                       (Py.Str "1") None None sample_state))
       = ([] ++ sent)%list
       /\ writes_with "DVM:SOURce" sent = ["DVM:SOURce CHAN1"].
Proof.
  split; [reflexivity |]. split; [reflexivity |].
  apply (@readDVM_switches_source_on_every_call sample_scope
           (sample_bench 1) 4 "DC" (Py.Str "1") None None sample_state).
  - intros reply. reflexivity.
  - reflexivity.
  - reflexivity.
Defined.

(** In mode FREQ the loop does end in both ways, and the call returns the
    reply to [DVM:FREQ?]: after the first reading below the sentinel when
    there is no timeout, and after the deadline when every reading before
    it was over range. *)
Section FreqRuns.
Context `{Oscilloscope} `{Bench}.
Variable script : nat -> float.
Hypothesis Hscript : scripted_polls script.

Lemma readDVM_freq_returns_after_valid_reading
    (N fuel : nat) (c : Py.value) (wait : option float) (s : state) :
  Py.is_list c = false ->
  Py.in_ (selected (self s) c) (_chanAnaValidList (self s)) = true ->
  wait_error wait = None ->
  (forall i, i < N -> over_range (self s) (script (polls (trace s) + i)) = true) ->
  (script (polls (trace s) + N)%nat <? OverRange (self s))%float = true ->
  N < fuel ->
  exists sent,
    _readDVM fuel "FREQ" c None wait s
    = Ret (number (trace s ++ sent) "DVM:FREQ?")
        {| self := self (select c s);
           trace := (trace s ++ sent ++ [QueryNumber "DVM:FREQ?"])%list |}
    /\ polls sent = N + 1
    /\ count_qnum "DVM:FREQ?" sent = 0.
Proof.
  intros Hl Hin Hw Hover Hv Hfuel.
  rewrite (readDVM_accepts _ _ _ _ _ _ Hl Hin Hw).
  set (h := (trace s ++ setup_events (trace s) (selected (self s) c) "FREQ" wait)%list).
  assert (Hp : polls (h ++ [Now]) = polls (trace s)).
  { unfold h. rewrite !polls_app, polls_setup. cbn. lia. }
  unfold bind.
  rewrite (poll_valid_exit script Hscript N); cbn [self trace select].
  - unfold after_poll, _instQueryNumber, log.
    change (String.eqb "FREQ" "FREQ") with true. cbn [trace self].
    exists (setup_events (trace s) (selected (self s) c) "FREQ" wait
            ++ [Now] ++ rounds (S N))%list.
    split; [| split].
    + unfold h. now rewrite <- !app_assoc.
    + rewrite !polls_app, polls_setup, polls_rounds. cbn. lia.
    + rewrite !count_qnum_app, count_freq_setup, count_qnum_rounds by reflexivity.
      reflexivity.
  - exact Hfuel.
  - unfold over_range. cbn. exact (ltb_geb_refl _ _ Hv).
  - reflexivity.
  - intros i Hi. rewrite Hp. apply Hover, Hi.
  - rewrite Hp. unfold over_range. cbn. exact (ltb_not_geb _ _ Hv).
Qed.

Lemma readDVM_freq_returns_after_deadline
    (time : nat -> Z) (N fuel : nat) (c : Py.value) (T : float)
    (wait : option float) (s : state) :
  scripted_clock time ->
  Py.is_list c = false ->
  Py.in_ (selected (self s) c) (_chanAnaValidList (self s)) = true ->
  wait_error wait = None ->
  over_range (self s) (OverRange (self s)) = true ->
  (forall i, i < N ->
     timed_out (Some T) (time (ticks (trace s) + 1 + i) - time (ticks (trace s)))
     = false) ->
  timed_out (Some T) (time (ticks (trace s) + 1 + N) - time (ticks (trace s)))
  = true ->
  (forall i, i < N -> over_range (self s) (script (polls (trace s) + i)) = true) ->
  N < fuel ->
  exists sent,
    _readDVM fuel "FREQ" c (Some T) wait s
    = Ret (number (trace s ++ sent) "DVM:FREQ?")
        {| self := self (select c s);
           trace := (trace s ++ sent ++ [QueryNumber "DVM:FREQ?"])%list |}
    /\ polls sent = N
    /\ count_qnum "DVM:FREQ?" sent = 0.
Proof.
  intros Hclock Hl Hin Hw Eo Ht Hd Hover Hfuel.
  rewrite (readDVM_accepts _ _ _ _ _ _ Hl Hin Hw).
  set (h := (trace s ++ setup_events (trace s) (selected (self s) c) "FREQ" wait)%list).
  assert (Hp : polls (h ++ [Now]) = polls (trace s)).
  { unfold h. rewrite !polls_app, polls_setup. cbn. lia. }
  assert (Hk : ticks h = ticks (trace s)).
  { unfold h. rewrite ticks_app, ticks_setup. lia. }
  assert (Hk' : ticks (h ++ [Now]) = ticks (trace s) + 1).
  { rewrite ticks_app, Hk. reflexivity. }
  unfold bind.
  rewrite (poll_timeout_exit script Hscript N); cbn [self trace select].
  - unfold after_poll, _instQueryNumber, log.
    change (String.eqb "FREQ" "FREQ") with true. cbn [trace self].
    exists (setup_events (trace s) (selected (self s) c) "FREQ" wait
            ++ [Now] ++ rounds N ++ [Now])%list.
    split; [| split].
    + unfold h. now rewrite <- !app_assoc.
    + rewrite !polls_app, polls_setup, polls_rounds. cbn. lia.
    + rewrite !count_qnum_app, count_freq_setup, count_qnum_rounds by reflexivity.
      reflexivity.
  - exact Hfuel.
  - exact Eo.
  - intros i Hi h' Hh'. rewrite !Hclock, Hh', Hk', Hk. now apply Ht.
  - intros h' Hh'. rewrite !Hclock, Hh', Hk', Hk. exact Hd.
  - intros i Hi. rewrite Hp. now apply Hover.
Qed.

End FreqRuns.

(** C5.  In mode FREQ, on an accepted channel and with a settle delay
    that [time.sleep] takes, once the polling loop has ended (within some
    budget, by a valid reading or by the deadline), [_readDVM] returns
    within every larger budget, and what it returns is the reply to a
    [DVM:FREQ?] query that it sends last and sends once. *)
Theorem readDVM_freq_ends_with_counter_query `{Oscilloscope} `{Bench}
    (fuel0 fuel : nat) (c : Py.value) (timeout wait : option float)
    (s : state) :
  Py.is_list c = false ->
  Py.in_ (selected (self s) c) (_chanAnaValidList (self s)) = true ->
  wait_error wait = None ->
  ended (_readDVM fuel0 "FREQ" c timeout wait s) = true ->
  fuel0 <= fuel ->
  exists sent,
    _readDVM fuel "FREQ" c timeout wait s
    = Ret (number (trace s ++ sent) "DVM:FREQ?")
        {| self := self (select c s);
           trace := (trace s ++ sent ++ [QueryNumber "DVM:FREQ?"])%list |}
    /\ count_qnum "DVM:FREQ?" (sent ++ [QueryNumber "DVM:FREQ?"]) = 1.
Proof.
  intros Hl Hin Hw Hend Hfuel.
  rewrite (readDVM_accepts fuel0 _ _ _ _ _ Hl Hin Hw) in Hend.
  rewrite (readDVM_accepts fuel _ _ _ _ _ Hl Hin Hw).
  set (h := (trace s ++ setup_events (trace s) (selected (self s) c) "FREQ" wait)%list)
    in *.
  set (s1 := {| self := self (select c s); trace := (h ++ [Now])%list |}) in *.
  apply ended_bind in Hend.
  replace fuel with (fuel0 + (fuel - fuel0)) by lia.
  unfold bind. rewrite (poll_mono _ _ _ _ _ _ Hend).
  destruct (poll_ended _ _ _ _ _ Hend) as (n & tl & v & Htl & ->).
  unfold after_poll, _instQueryNumber, log.
  change (String.eqb "FREQ" "FREQ") with true. cbn [trace self s1].
  exists (setup_events (trace s) (selected (self s) c) "FREQ" wait
          ++ Now :: rounds n ++ tl)%list.
  split.
  - unfold h. rewrite <- !app_assoc. cbn [app]. now rewrite <- ?app_assoc.
  - change (Now :: rounds n ++ tl)%list with ([Now] ++ rounds n ++ tl)%list.
    rewrite !count_qnum_app, count_freq_setup, count_qnum_rounds by reflexivity.
    destruct Htl as [-> | ->]; reflexivity.
Qed.

(** An instance: the loop ends by the deadline within three rounds. *)
Lemma readDVM_freq_ends_with_counter_query_witness :
  exists sent,
    @_readDVM sample_scope (sample_bench 9) 7 "FREQ" (Py.Str "1")
      (Some 2.5%float) None sample_state
    = Ret (@number (sample_bench 9) ([] ++ sent) "DVM:FREQ?")
        {| self := self (select (Py.Str "1") sample_state);
           trace := ([] ++ sent ++ [QueryNumber "DVM:FREQ?"])%list |}
    /\ count_qnum "DVM:FREQ?" (sent ++ [QueryNumber "DVM:FREQ?"]) = 1.
Proof.
  apply (@readDVM_freq_ends_with_counter_query sample_scope (sample_bench 9)
           3 7 (Py.Str "1") (Some 2.5%float) None sample_state).
  - reflexivity.
  - reflexivity.
  - reflexivity.
  - vm_compute. reflexivity.
  - lia.
Defined.

(** C6.  On an accepted channel and with a settle delay that
    [time.sleep] takes, [_measure] sends one measurement query, after
    everything else, and returns its reply read as a float (raising
    [ValueError] when the reply is not a number); the reply is not looked
    at otherwise, so an over-range reply is returned like any other, and
    the only queries of the call are the source query and that one. *)
Theorem measure_sends_one_query `{Bench}
    (mode : string) (para : option string) (c : Py.value)
    (wait : option float) (install : bool) (s : state) :
  Py.is_list c = false ->
  Py.in_ (selected (self s) c) (_chanAllValidList (self s)) = true ->
  wait_error wait = None ->
  let ch := selected (self s) c in
  let q := measure_query mode para in
  let before :=
    Query "MEASure:SOURce?" :: measure_events (trace s) ch mode para wait install in
  let reply := answer (trace s ++ before) q in
  let s' := {| self := self (select c s);
               trace := (trace s ++ before ++ [Query q])%list |} in
  _measure mode para c wait install s
  = match float_of_str reply with
    | Some f => Ret f s'
    | None =>
        Raise (Py.ValueError
                 ("could not convert string to float: '" ++ reply ++ "'")) s'
    end
  /\ filter is_query (before ++ [Query q]) = [Query "MEASure:SOURce?"; Query q].
Proof.
  intros Hl Hin Hw ch q before reply s'. split.
  - rewrite (measure_accepts _ _ _ _ _ _ Hl Hin Hw). fold ch q.
    unfold s', reply, before. cbn [app].
    now rewrite <- !app_assoc.
  - unfold before, measure_events, sleep_events.
    destruct (Py.neb _ ch), install, wait as [w |];
      try destruct (Py.truthy_num (Some w)); try destruct (time_sleep_error w);
    reflexivity.
Qed.

(** An instance: an installed RMS measurement on channel 2 whose reply is
    over range. *)
Lemma measure_sends_one_query_witness :
  @_measure (sample_bench 0) "VRMS" (Some "DISPlay") (Py.Str "CHAN2")
    (Some 0.25%float) true sample_state
  = Ret sentinel
      {| self := with_channel (Py.Str "CHAN2") sample_obj;
         trace := [Query "MEASure:SOURce?"; Write "MEASure:SOURce CHAN2";
                   Write "MEASure:STATistics:DISPlay ON";
                   Write "MEASure:VRMS DISPlay"; Sleep 0.25;
                   Query "MEASure:VRMS? DISPlay"] |}
  /\ filter is_query
       [Query "MEASure:SOURce?"; Write "MEASure:SOURce CHAN2";
        Write "MEASure:STATistics:DISPlay ON";
        Write "MEASure:VRMS DISPlay"; Sleep 0.25;
        Query "MEASure:VRMS? DISPlay"]
     = [Query "MEASure:SOURce?"; Query "MEASure:VRMS? DISPlay"].
Proof.
  apply (@measure_sends_one_query (sample_bench 0) "VRMS" (Some "DISPlay")
           (Py.Str "CHAN2") (Some 0.25%float) true sample_state);
    reflexivity.
Defined.

(** ** Annotation *)

Section Strings.

Lemma append_inj_l (a x y : string) : a ++ x = a ++ y -> x = y.
Proof.
  induction a as [| ch a IH]; cbn; intros E; [exact E |].
  apply IH. now inversion E.
Qed.

End Strings.

(** C9.  With firmware above 2.60, [annotateColor('ch1')] places the
    bookmark and sets it with the colour [CHAN1], the translation of
    ['ch1']; the command it writes is not the one with ['ch1'] in the
    colour field. *)
Theorem annotateColor_translates_ch1 (s : state) :
  (0x1.4cccccccccccdp+1 <? _version (self s))%float = true ->
  let text := _annotationText (self s) in
  let set_with color :=
    "DISPlay:BOOKmark1:SET NONE," ++ dquote ++ text ++ dquote
    ++ "," ++ color ++ "," ++ dquote ++ text ++ dquote in
  annotateColor (Some "ch1") s
  = Ret tt {| self := with_annotationColor "ch1" (self s);
              trace := (trace s
                        ++ [Write "DISPlay:BOOKmark1:XPOSition 0.015";
                            Write "DISPlay:BOOKmark1:YPOSition 0.06";
                            Write (set_with "CHAN1")])%list |}
  /\ set_with "CHAN1" <> set_with "ch1".
Proof.
  intros Hv text set_with. split.
  - unfold annotateColor. unfold bind at 1. unfold get at 1. rewrite Hv.
    unfold bind, set_annotationColor, _instWrite, get, ret, log.
    cbn -[dict_get].
    change (dict_get _colorNameOldtoNew "ch1") with (Some "CHAN1").
    cbn. now rewrite <- !app_assoc.
  - unfold set_with. intros E.
    apply append_inj_l in E. apply append_inj_l in E.
    apply append_inj_l in E. apply append_inj_l in E.
    cbn in E. discriminate.
Qed.

(** An instance: firmware 7.5 and the annotation text [probe A]. *)
Lemma annotateColor_translates_ch1_witness :
  annotateColor (Some "ch1")
    {| self := with_annotationText "probe A" sample_obj; trace := [] |}
  = Ret tt
      {| self := with_annotationColor "ch1"
                   (with_annotationText "probe A" sample_obj);
         trace := [Write "DISPlay:BOOKmark1:XPOSition 0.015";
                   Write "DISPlay:BOOKmark1:YPOSition 0.06";
                   Write ("DISPlay:BOOKmark1:SET NONE," ++ dquote ++ "probe A"
                          ++ dquote ++ ",CHAN1," ++ dquote ++ "probe A"
                          ++ dquote)] |}.
Proof.
  apply (annotateColor_translates_ch1
           {| self := with_annotationText "probe A" sample_obj; trace := [] |}).
  reflexivity.
Defined.

(** ** The converter *)

(** C7, as amended.  For [x = [0, 1, 2]] and [y = [10, 20, 30]] the
    converter writes one file, next to its input with the extension
    [.csv], whose content is three lines of two comma-separated numbers in
    the [%.18e] notation that [np.savetxt] uses by default. *)
Theorem csv_of_example_arrays `{Pathlib} (filename : string) :
  main filename sample_x sample_y
  = [SaveFile (with_suffix filename ".csv") expected_e18].
Proof. vm_compute. reflexivity. Qed.

(** C7, as stated, fails: the file written for the example arrays does
    not hold the lines [0.0,10.0], [1.0,20.0], [2.0,30.0]. *)
Lemma csv_of_example_arrays_is_not_plain :
  @main sample_pathlib "wave.npz" sample_x sample_y
  = [SaveFile "wave.csv" expected_e18]
  /\ @main sample_pathlib "wave.npz" sample_x sample_y
     <> [SaveFile "wave.csv" expected_plain].
Proof.
  split; [vm_compute; reflexivity |].
  vm_compute. intros E. discriminate E.
Qed.

(** C8.  When the two arrays differ in length the converter prints the
    error message and does nothing else: it writes no file and makes no
    explicit exit. *)
Theorem csv_length_mismatch `{Pathlib} (filename : string) (x y : list float) :
  List.length x <> List.length y ->
  main filename x y
  = [Print ("ERROR: Number of x (" ++ Py.str_nat (List.length x)
            ++ ") and y (" ++ Py.str_nat (List.length y)
            ++ ") values do not match!")]
  /\ existsb is_save (main filename x y) = false
  /\ existsb is_exit (main filename x y) = false.
Proof.
  intros Hne. unfold main.
  apply Nat.eqb_neq in Hne. rewrite Hne. repeat split; reflexivity.
Qed.

(** An instance: three abscissas and two ordinates. *)
Lemma csv_length_mismatch_witness :
  @main sample_pathlib "wave.npz" [0; 1; 2]%float [10; 20]%float
  = [Print "ERROR: Number of x (3) and y (2) values do not match!"]
  /\ existsb is_save
       (@main sample_pathlib "wave.npz" [0; 1; 2]%float [10; 20]%float) = false
  /\ existsb is_exit
       (@main sample_pathlib "wave.npz" [0; 1; 2]%float [10; 20]%float) = false.
Proof.
  apply (@csv_length_mismatch sample_pathlib "wave.npz"
           [0; 1; 2]%float [10; 20]%float).
  simpl. lia.
Defined.

(** * Further properties of the command layer *)

(** ** More on the order of binary64 numbers *)

Section FloatOrderMore.

Lemma SFcompare_Eq_swap (a b : spec_float) :
  SFcompare a b = Some Eq -> SFcompare b a = Some Eq.
Proof.
  destruct a as [sa | sa | | sa ma ea], b as [sb | sb | | sb mb eb];
    simpl; try discriminate; try reflexivity;
    try (destruct sa; discriminate);
    try (destruct sb; discriminate);
    try (destruct sa, sb; discriminate || reflexivity).
  destruct sa, sb; try discriminate;
    rewrite (Z.compare_antisym ea eb);
    fold (Pos.compare mb ma); fold (Pos.compare ma mb);
    rewrite (Pos.compare_antisym ma mb);
    destruct (ea ?= eb)%Z; simpl;
    destruct (ma ?= mb)%positive; simpl; intros E; congruence.
Qed.

(** [x <= y] excludes [y < x]. *)
Lemma leb_not_gtb (x y : float) :
  (x <=? y)%float = true -> (y <? x)%float = false.
Proof.
  rewrite ltb_spec, leb_spec. unfold SFltb, SFleb. intros E.
  destruct (SFcompare (Prim2SF x) (Prim2SF y)) as [[| |]|] eqn:C;
    try discriminate.
  - now rewrite (SFcompare_Eq_swap _ _ C).
  - now rewrite (SFcompare_Lt_swap _ _ C).
Qed.

(** Nothing compares [<=] to a NaN. *)
Lemma leb_nan (x : float) : (x <=? nan)%float = false.
Proof.
  rewrite leb_spec. change (Prim2SF nan) with S754_nan.
  unfold SFleb. now destruct (Prim2SF x).
Qed.

End FloatOrderMore.

(** ** What a call leaves behind *)

Section Aftermath.
Context `{Oscilloscope} `{Bench}.

Lemma accepted_or_refused (valid : list string) (c : Py.value) (s : state) :
  refused valid c s
  \/ (Py.is_list c = false /\ Py.in_ (selected (self s) c) valid = true).
Proof.
  unfold refused.
  destruct (Py.is_list c); [now left; left |].
  destruct (Py.in_ (selected (self s) c) valid); [now right | now left; right].
Qed.

Lemma writes_setup h ch mode wait :
  writes (setup_events h ch mode wait)
  = ((if _1OR0 (answer h "DVM:ENABle?") then [] else ["DVM:ENABLE ON"])
     ++ (if Py.neb (_chanNumber (dvm_source h)) ch
         then [("DVM:SOURce " ++ channelStr ch)%string] else [])
     ++ [("DVM:MODE " ++ mode)%string])%list.
Proof.
  unfold setup_events, enable_events, switch_events, sleep_events.
  destruct (_1OR0 _), (Py.neb _ _), wait as [w |];
    try destruct (Py.truthy_num (Some w)); try destruct (time_sleep_error w);
    reflexivity.
Qed.

Lemma sleeps_setup h ch mode wait :
  sleeps (setup_events h ch mode wait) = sleeps (sleep_events wait).
Proof.
  unfold setup_events, enable_events, switch_events, sleep_events.
  destruct (_1OR0 _), (Py.neb _ _), wait as [w |];
    try destruct (Py.truthy_num (Some w)); try destruct (time_sleep_error w);
    reflexivity.
Qed.

(** The object a call of [_readDVM] leaves, however the call ends. *)
Lemma readDVM_final_self fuel mode c timeout wait (s : state) :
  self (final (_readDVM fuel mode c timeout wait s)) = self (select c s).
Proof.
  destruct (accepted_or_refused (_chanAnaValidList (self s)) c s)
    as [R | [Hl Hin]].
  - destruct (readDVM_rejects fuel mode c timeout wait s R) as [msg ->].
    reflexivity.
  - pose proof (readDVM_runs fuel mode c timeout wait s Hl Hin) as E.
    cbv zeta in E. rewrite E. clear E.
    destruct (wait_error wait) as [e |]; [reflexivity |].
    set (h := (trace s ++ setup_events (trace s) (selected (self s) c) mode wait)%list).
    set (s1 := {| self := self (select c s); trace := (h ++ [Now])%list |}).
    destruct (poll_shape fuel timeout (clock h) (OverRange (self s)) s1)
      as (n & tl & _ & Hf & Hr).
    unfold bind.
    destruct (poll fuel timeout (clock h) (OverRange (self s)) s1)
      as [v st | e st | st]; cbn [final] in Hf; subst st.
    + unfold after_poll, _instQueryNumber, ret, log.
      destruct (String.eqb mode "FREQ"); reflexivity.
    + reflexivity.
    + reflexivity.
Qed.

(** On an accepted selector, and with a settle delay that [time.sleep]
    takes, [_readDVM] does not raise. *)
Lemma readDVM_accepted_outcome fuel mode c timeout wait (s : state) :
  Py.is_list c = false ->
  Py.in_ (selected (self s) c) (_chanAnaValidList (self s)) = true ->
  wait_error wait = None ->
  forall e st, _readDVM fuel mode c timeout wait s <> Raise e st.
Proof.
  intros Hl Hin Hw e st.
  rewrite (readDVM_accepts _ _ _ _ _ _ Hl Hin Hw).
  set (h := (trace s ++ setup_events (trace s) (selected (self s) c) mode wait)%list).
  set (s1 := {| self := self (select c s); trace := (h ++ [Now])%list |}).
  destruct (poll_shape fuel timeout (clock h) (OverRange (self s)) s1)
    as (n & tl & _ & _ & Hr).
  unfold bind.
  destruct (poll fuel timeout (clock h) (OverRange (self s)) s1)
    as [v st' | e' st' | st'].
  - unfold after_poll, _instQueryNumber, ret.
    destruct (String.eqb mode "FREQ"); discriminate.
  - now destruct (Hr e' st').
  - discriminate.
Qed.

End Aftermath.

(** ** The DVM reading, further *)

(** X1.  On an accepted channel, the commands [_readDVM] writes are, in
    this order and nothing else: [DVM:ENABLE ON] when the DVM was reported
    off, the source switch when what the parser [_chanNumber] makes of the
    reply to [DVM:SOURce?] is not equal to [self.channel], and the mode;
    the polling and the frequency query write nothing.  An accepted channel
    is a string, so with a parser that returns a number the source switch
    is written on every call.  This holds for what has been sent however
    the call ends, also when the settle delay raises: the writes come
    before it. *)
Theorem readDVM_writes_only_setup `{Oscilloscope} `{Bench}
    (fuel : nat) (mode : string) (c : Py.value) (timeout wait : option float)
    (s : state) :
  Py.is_list c = false ->
  Py.in_ (selected (self s) c) (_chanAnaValidList (self s)) = true ->
  let ch := selected (self s) c in
  let enable := if _1OR0 (answer (trace s) "DVM:ENABle?") then []
                else ["DVM:ENABLE ON"] in
  exists sent,
    trace (final (_readDVM fuel mode c timeout wait s)) = (trace s ++ sent)%list
    /\ writes sent
       = (enable
          ++ (if Py.neb (_chanNumber (dvm_source (trace s))) ch
              then [("DVM:SOURce " ++ channelStr ch)%string] else [])
          ++ [("DVM:MODE " ++ mode)%string])%list
    /\ ((forall reply, Py.is_int (_chanNumber reply) = true) ->
        writes sent
        = (enable ++ [("DVM:SOURce " ++ channelStr ch)%string;
                      ("DVM:MODE " ++ mode)%string])%list).
Proof.
  intros Hl Hin ch enable.
  destruct (readDVM_final_trace fuel mode c timeout wait s Hl Hin)
    as (rest & E & _ & W & _).
  eexists. split; [exact E |].
  rewrite writes_app, W, app_nil_r, writes_setup. fold ch enable.
  split; [reflexivity |].
  intros Hint.
  now rewrite (number_differs_from_accepted _ _ _ (Hint _) Hin).
Qed.

(** An instance: the DVM is on and reads channel 1, and channel 1 is
    asked for; the parser gives the number 1, the channel is the string
    ['1'], and the source is switched. *)
Lemma readDVM_writes_only_setup_witness :
  exists sent,
    trace (final (@_readDVM sample_scope (sample_bench 1) 4 "ACRM" (Py.Str "1")
                    (Some (-1)%float) None sample_state))
    = ([] ++ sent)%list
    /\ writes sent = ["DVM:SOURce CHAN1"; "DVM:MODE ACRM"]
    /\ ((forall reply, Py.is_int (@_chanNumber sample_scope reply) = true) ->
        writes sent = ["DVM:SOURce CHAN1"; "DVM:MODE ACRM"]).
Proof.
  apply (@readDVM_writes_only_setup sample_scope (sample_bench 1) 4 "ACRM"
           (Py.Str "1") (Some (-1)%float) None sample_state); reflexivity.
Defined.

Section Blocking.
Context `{Oscilloscope} `{Bench}.

(** Without a timeout, against readings that are all over range, the loop
    uses up any budget. *)
Lemma poll_never_ends (fuel : nat) :
  forall start val (s : state),
    over_range (self s) val = true ->
    (forall h, over_range (self s) (number h "DVM:CURRent?") = true) ->
    poll fuel None start val s
    = OutOfFuel {| self := self s; trace := (trace s ++ rounds fuel)%list |}.
Proof.
  induction fuel as [| fuel IH]; intros start val s Hval Hall.
  - cbn [poll]. unfold bind, get. rewrite Hval. cbn.
    now rewrite app_nil_r, state_eta.
  - rewrite poll_round; [| exact Hval | reflexivity].
    rewrite IH; cbn [self trace].
    + now rewrite rounds_S, <- app_assoc.
    + apply Hall.
    + exact Hall.
Qed.

End Blocking.

(** X2.  With [timeout=None], on an accepted channel and with a settle
    delay that [time.sleep] takes, [_readDVM] does not return as long as
    the readings are over range: whatever the number of rounds it is
    followed for, it is still polling, and has polled once per round. *)
Theorem readDVM_blocks_while_over_range `{Oscilloscope} `{Bench}
    (fuel : nat) (mode : string) (c : Py.value) (wait : option float)
    (s : state) :
  Py.is_list c = false ->
  Py.in_ (selected (self s) c) (_chanAnaValidList (self s)) = true ->
  wait_error wait = None ->
  (forall h, over_range (self s) (number h "DVM:CURRent?") = true) ->
  ended (_readDVM fuel mode c None wait s) = false
  /\ polls (trace (final (_readDVM fuel mode c None wait s)))
     = polls (trace s) + fuel.
Proof.
  intros Hl Hin Hw Hall.
  rewrite (readDVM_accepts _ _ _ _ _ _ Hl Hin Hw).
  unfold bind. rewrite poll_never_ends; cbn [self trace select].
  - split; [reflexivity |]. cbn [final trace].
    rewrite !polls_app, polls_setup, polls_rounds. cbn. lia.
  - unfold over_range in *. exact (leb_refl_of_leb _ _ (Hall [])).
  - exact Hall.
Qed.

(** An instance: an instrument that answers the sentinel to its first
    nine polls is still being polled after seven rounds. *)
Lemma readDVM_blocks_while_over_range_witness :
  ended (@_readDVM sample_scope
           (constant_bench sentinel)
           7 "DC" (Py.Str "1") None None sample_state) = false
  /\ polls (trace (final (@_readDVM sample_scope
           (constant_bench sentinel)
           7 "DC" (Py.Str "1") None None sample_state)))
     = 0 + 7.
Proof.
  apply (@readDVM_blocks_while_over_range sample_scope
           (constant_bench sentinel)
           7 "DC" (Py.Str "1") None sample_state).
  - reflexivity.
  - reflexivity.
  - reflexivity.
  - intros h. reflexivity.
Defined.

(** X3.  A reading that is not a number ends the loop: it is not [>=]
    the sentinel, so [_readDVM] (no timeout, mode other than FREQ, a settle
    delay that [time.sleep] takes) returns the NaN it got from its first
    poll. *)
Theorem readDVM_returns_nan_reading `{Oscilloscope} `{Bench}
    (fuel : nat) (mode : string) (c : Py.value) (wait : option float)
    (s : state) :
  Py.is_list c = false ->
  Py.in_ (selected (self s) c) (_chanAnaValidList (self s)) = true ->
  String.eqb mode "FREQ" = false ->
  wait_error wait = None ->
  over_range (self s) (OverRange (self s)) = true ->
  (forall h, polls h = polls (trace s) -> number h "DVM:CURRent?" = nan) ->
  0 < fuel ->
  exists s',
    _readDVM fuel mode c None wait s = Ret nan s'
    /\ polls (trace s') = polls (trace s) + 1.
Proof.
  intros Hl Hin Hmode Hw Ho Hnan Hfuel.
  rewrite (readDVM_accepts _ _ _ _ _ _ Hl Hin Hw).
  set (h := (trace s ++ setup_events (trace s) (selected (self s) c) mode wait)%list).
  assert (Hp : polls ((h ++ [Now]) ++ [Now]) = polls (trace s)).
  { unfold h. rewrite !polls_app, polls_setup. cbn. lia. }
  destruct fuel as [| fuel]; [lia |].
  unfold bind. rewrite poll_round; [| exact Ho | reflexivity].
  cbn [self trace]. rewrite (Hnan _ Hp).
  rewrite poll_valid by apply leb_nan.
  unfold after_poll. rewrite Hmode. unfold ret.
  eexists. split; [reflexivity |]. cbn [trace].
  rewrite polls_app.
  change (polls [Now; QueryNumber "DVM:CURRent?"]) with 1.
  rewrite polls_app in Hp. change (polls [Now]) with 0 in Hp. lia.
Qed.

(** An instance: an instrument whose readings are all NaN. *)
Lemma readDVM_returns_nan_reading_witness :
  exists s',
    @_readDVM sample_scope
      (constant_bench nan)
      1 "DC" (Py.Str "1") None None sample_state
    = Ret nan s'
    /\ polls (trace s') = 0 + 1.
Proof.
  apply (@readDVM_returns_nan_reading sample_scope
           (constant_bench nan)
           1 "DC" (Py.Str "1") None sample_state).
  - reflexivity.
  - reflexivity.
  - reflexivity.
  - reflexivity.
  - reflexivity.
  - intros h _. reflexivity.
  - lia.
Defined.

(** ** The scalar measurement and the label, further *)

Section MeasureMore.
Context `{Oscilloscope} `{Bench}.

(** The state [_measure] leaves on an accepted selector, whether the
    reply could be read as a number or not; the measurement query is
    missing from it when the settle delay raised. *)
Lemma measure_final mode para c wait install (s : state) :
  Py.is_list c = false ->
  Py.in_ (selected (self s) c) (_chanAllValidList (self s)) = true ->
  final (_measure mode para c wait install s)
  = {| self := self (select c s);
       trace := (trace s
                 ++ Query "MEASure:SOURce?"
                    :: measure_events (trace s) (selected (self s) c) mode para
                         wait install
                 ++ match wait_error wait with
                    | Some _ => []
                    | None => [Query (measure_query mode para)]
                    end)%list |}.
Proof.
  intros Hl Hin.
  pose proof (measure_runs mode para c wait install s Hl Hin) as E.
  cbv zeta in E. rewrite E. clear E.
  destruct (wait_error wait) as [e |].
  - cbn [final]. now rewrite app_nil_r.
  - destruct (float_of_str _); cbn [final]; f_equal;
      now rewrite <- app_assoc.
Qed.

(** [channelLabel] on a selector it rejects. *)
Lemma channelLabel_rejects label c (s : state) :
  refused (_chanAnaValidList (self s)) c s ->
  exists msg, channelLabel label c s = Raise (Py.ValueError msg) (select c s).
Proof.
  intros Hc. apply rejected_list_or_absent in Hc.
  unfold channelLabel. unfold bind at 1. rewrite select_when.
  unfold bind at 1. unfold get at 1. rewrite select_channel.
  destruct Hc as [-> | [-> Hc]]; [unfold raise; eauto |].
  unfold bind at 1. unfold get at 1.
  cbn [select self _chanAnaValidList with_channel].
  rewrite Hc. unfold raise. cbn. eauto.
Qed.

(** [channelLabel] on a selector it accepts. *)
Lemma channelLabel_accepts label c (s : state) :
  Py.is_list c = false ->
  Py.in_ (selected (self s) c) (_chanAnaValidList (self s)) = true ->
  channelLabel label c s
  = Ret tt
      {| self := self (select c s);
         trace := (trace s
                   ++ [Write ("CHAN" ++ Py.str (selected (self s) c) ++ ":LABel "
                              ++ dquote ++ label ++ dquote);
                       Write "DISPlay:LABel ON"])%list |}.
Proof.
  intros Hl Hin.
  assert (Hch : Py.is_list (selected (self s) c) = false)
    by exact (in_not_list _ _ Hin).
  unfold channelLabel. unfold bind at 1. rewrite select_when.
  unfold bind at 1. unfold get at 1. rewrite select_channel.
  rewrite Hch, Hl. cbn [orb].
  unfold bind at 1; unfold get at 1.
  cbn [select self _chanAnaValidList with_channel].
  rewrite Hin. cbn [negb].
  unfold bind, _instWrite, log. cbn. now rewrite <- app_assoc.
Qed.

End MeasureMore.

(** X4.  On an accepted channel, the commands [_measure] writes are, in
    this order and nothing else: the source switch when the reply to
    [MEASure:SOURce?] is not the channel, and, only when [install] is true,
    the statistics display command followed by the command form of the
    measurement.  Without [install] a measurement whose source is already
    selected writes nothing. *)
Theorem measure_writes `{Bench}
    (mode : string) (para : option string) (c : Py.value)
    (wait : option float) (install : bool) (s : state) :
  Py.is_list c = false ->
  Py.in_ (selected (self s) c) (_chanAllValidList (self s)) = true ->
  let ch := selected (self s) c in
  exists sent,
    trace (final (_measure mode para c wait install s)) = (trace s ++ sent)%list
    /\ writes sent
       = ((if Py.neb (Py.Str (answer (trace s) "MEASure:SOURce?")) ch
           then [("MEASure:SOURce " ++ Py.str ch)%string] else [])
          ++ (if install
              then ["MEASure:STATistics:DISPlay ON"; measure_command mode para]
              else []))%list.
Proof.
  intros Hl Hin ch. rewrite (measure_final _ _ _ _ _ _ Hl Hin).
  eexists. split; [reflexivity |]. fold ch.
  set (q := match wait_error wait with
            | Some _ => []
            | None => [Query (measure_query mode para)]
            end).
  assert (Q : writes q = []) by (unfold q; now destruct (wait_error wait)).
  change (Query "MEASure:SOURce?"
          :: measure_events (trace s) ch mode para wait install ++ q)%list
    with ([Query "MEASure:SOURce?"]
          ++ measure_events (trace s) ch mode para wait install ++ q)%list.
  rewrite !writes_app, Q. unfold measure_events, sleep_events.
  destruct (Py.neb _ ch), install, wait as [w |];
    try destruct (Py.truthy_num (Some w)); try destruct (time_sleep_error w);
    reflexivity.
Qed.

(** An instance: the source is CHAN1 already and nothing is installed, so
    the call writes nothing. *)
Lemma measure_writes_witness :
  exists sent,
    trace (final (@_measure (sample_bench 0) "FREQ" None (Py.Str "CHAN1")
                    (Some 0.25%float) false sample_state))
    = ([] ++ sent)%list
    /\ writes sent = ([] ++ [])%list.
Proof.
  apply (@measure_writes (sample_bench 0) "FREQ" None (Py.Str "CHAN1")
           (Some 0.25%float) false sample_state); reflexivity.
Defined.

(** X5.  The settle delay: [_readDVM] and [_measure] on an accepted
    channel pause once, for [wait] seconds, when [wait] is a number other
    than zero that [time.sleep] takes, and do not pause at all when [wait]
    is [None] or zero (of either sign), nor when [time.sleep] refuses it (a
    negative number, a NaN, a number too large for its clock). *)
Theorem settle_delay `{Oscilloscope} `{Bench}
    (c : Py.value) (wait : option float) (s : state) :
  Py.is_list c = false ->
  let pauses :=
    match wait with
    | Some w => if (w =? 0)%float then []
                else match time_sleep_error w with
                     | Some _ => []
                     | None => [w]
                     end
    | None => []
    end in
  (Py.in_ (selected (self s) c) (_chanAnaValidList (self s)) = true ->
   forall fuel mode timeout,
   exists sent,
     trace (final (_readDVM fuel mode c timeout wait s)) = (trace s ++ sent)%list
     /\ sleeps sent = pauses)
  /\ (Py.in_ (selected (self s) c) (_chanAllValidList (self s)) = true ->
      forall mode para install,
      exists sent,
        trace (final (_measure mode para c wait install s)) = (trace s ++ sent)%list
        /\ sleeps sent = pauses).
Proof.
  intros Hl pauses.
  assert (P : sleeps (sleep_events wait) = pauses).
  { unfold pauses, sleep_events, Py.truthy_num.
    destruct wait as [w |]; [| reflexivity].
    destruct (w =? 0)%float; [reflexivity |]. cbn [negb].
    now destruct (time_sleep_error w). }
  split; intros Hin.
  - intros fuel mode timeout.
    destruct (readDVM_final_trace fuel mode c timeout wait s Hl Hin)
      as (rest & E & _ & _ & Z).
    eexists. split; [exact E |].
    now rewrite sleeps_app, Z, app_nil_r, sleeps_setup.
  - intros mode para install. rewrite (measure_final _ _ _ _ _ _ Hl Hin).
    eexists. split; [reflexivity |].
    set (q := match wait_error wait with
              | Some _ => []
              | None => [Query (measure_query mode para)]
              end).
    assert (Q : sleeps q = []) by (unfold q; now destruct (wait_error wait)).
    change (Query "MEASure:SOURce?"
            :: measure_events (trace s) (selected (self s) c) mode para wait install
            ++ q)%list
      with ([Query "MEASure:SOURce?"]
            ++ measure_events (trace s) (selected (self s) c) mode para wait install
            ++ q)%list.
    rewrite !sleeps_app, Q. unfold measure_events.
    rewrite !sleeps_app, P.
    destruct (Py.neb _ _), install; cbn [sleeps flat_map app];
      now rewrite ?app_nil_r.
Qed.

(** Instances, on channel 1: [wait=0.5] gives one pause of half a second
    in [_readDVM], [wait=0] gives none, and [wait=-1], which [time.sleep]
    refuses, gives none in [_measure]. *)
Lemma settle_delay_witness :
  (exists sent,
     trace (final (@_readDVM sample_scope (sample_bench 0) 3 "DC" (Py.Str "1")
                     None (Some 0.5%float) sample_state))
     = ([] ++ sent)%list
     /\ sleeps sent = [0.5%float])
  /\ (exists sent,
        trace (final (@_readDVM sample_scope (sample_bench 0) 3 "DC" (Py.Str "1")
                        None (Some 0%float) sample_state))
        = ([] ++ sent)%list
        /\ sleeps sent = [])
  /\ (exists sent,
        trace (final (@_measure (sample_bench 0) "VPP" None (Py.Str "CHAN1")
                        (Some (-1)%float) false sample_state))
        = ([] ++ sent)%list
        /\ sleeps sent = []).
Proof.
  split; [| split].
  - destruct (@settle_delay sample_scope (sample_bench 0) (Py.Str "1")
                (Some 0.5%float) sample_state) as [Hdvm _]; [reflexivity |].
    apply (Hdvm ltac:(reflexivity) 3 "DC" None).
  - destruct (@settle_delay sample_scope (sample_bench 0) (Py.Str "1")
                (Some 0%float) sample_state) as [Hdvm _]; [reflexivity |].
    apply (Hdvm ltac:(reflexivity) 3 "DC" None).
  - destruct (@settle_delay sample_scope (sample_bench 0) (Py.Str "CHAN1")
                (Some (-1)%float) sample_state) as [_ Hall]; [reflexivity |].
    apply (Hall ltac:(reflexivity) "VPP" None false).
Defined.

(** X17.  A settle delay that [time.sleep] refuses ends the call with
    the error of [time.sleep], after the set-up was sent and before
    anything is read: [_readDVM] has written the mode last, and has neither
    looked at the clock nor polled; [_measure] has sent no query but the
    one for the source; neither has paused, and the channel passed is
    selected all the same. *)
Theorem refused_settle_delay_ends_the_call `{Oscilloscope} `{Bench}
    (c : Py.value) (wait : option float) (e : Py.exn) (s : state) :
  Py.is_list c = false ->
  wait_error wait = Some e ->
  (Py.in_ (selected (self s) c) (_chanAnaValidList (self s)) = true ->
   forall fuel mode timeout,
   exists sent,
     _readDVM fuel mode c timeout wait s
     = Raise e {| self := self (select c s); trace := (trace s ++ sent)%list |}
     /\ last sent Now = Write ("DVM:MODE " ++ mode)
     /\ polls sent = 0 /\ ticks sent = 0 /\ sleeps sent = [])
  /\ (Py.in_ (selected (self s) c) (_chanAllValidList (self s)) = true ->
      forall mode para install,
      exists sent,
        _measure mode para c wait install s
        = Raise e {| self := self (select c s); trace := (trace s ++ sent)%list |}
        /\ filter is_query sent = [Query "MEASure:SOURce?"]
        /\ sleeps sent = []).
Proof.
  intros Hl Hw.
  assert (Hs : sleep_events wait = []).
  { unfold wait_error in Hw. unfold sleep_events.
    destruct wait as [w |]; [| discriminate].
    destruct (Py.truthy_num (Some w)); [| discriminate].
    now destruct (time_sleep_error w). }
  split; intros Hin.
  - intros fuel mode timeout.
    pose proof (readDVM_runs fuel mode c timeout wait s Hl Hin) as E.
    cbv zeta in E. rewrite Hw in E.
    exists (setup_events (trace s) (selected (self s) c) mode wait).
    split; [exact E |]. split; [| split; [| split]].
    + unfold setup_events. rewrite Hs.
      rewrite app_comm_cons, app_assoc. apply last_last.
    + apply polls_setup.
    + apply ticks_setup.
    + now rewrite sleeps_setup, Hs.
  - intros mode para install.
    pose proof (measure_runs mode para c wait install s Hl Hin) as E.
    cbv zeta in E. rewrite Hw in E.
    eexists. split; [exact E |].
    unfold measure_events. rewrite Hs.
    destruct (Py.neb _ _), install; split; reflexivity.
Qed.

(** An instance: [wait=-1] on channel 1.  [time.sleep] refuses a negative
    number and a NaN with [ValueError], an infinite one with
    [OverflowError], and takes half a second. *)
Lemma refused_settle_delay_ends_the_call_witness :
  (time_sleep_error (-1)
   = Some (Py.ValueError "sleep length must be non-negative")
   /\ time_sleep_error nan
      = Some (Py.ValueError "Invalid value NaN (not a number)")
   /\ time_sleep_error infinity
      = Some (Py.OverflowError "timestamp too large to convert to C _PyTime_t")
   /\ time_sleep_error 0.5 = None)
  /\ (exists sent,
        @_readDVM sample_scope (sample_bench 0) 3 "DC" (Py.Str "1") None
          (Some (-1)%float) sample_state
        = Raise (Py.ValueError "sleep length must be non-negative")
            {| self := with_channel (Py.Str "1") sample_obj;
               trace := ([] ++ sent)%list |}
        /\ last sent Now = Write "DVM:MODE DC"
        /\ polls sent = 0 /\ ticks sent = 0 /\ sleeps sent = [])
  /\ (exists sent,
        @_measure (sample_bench 0) "VPP" None (Py.Str "CHAN1")
          (Some (-1)%float) false sample_state
        = Raise (Py.ValueError "sleep length must be non-negative")
            {| self := with_channel (Py.Str "CHAN1") sample_obj;
               trace := ([] ++ sent)%list |}
        /\ filter is_query sent = [Query "MEASure:SOURce?"]
        /\ sleeps sent = []).
Proof.
  split; [repeat split; reflexivity |].
  destruct (@refused_settle_delay_ends_the_call sample_scope (sample_bench 0)
              (Py.Str "1") (Some (-1)%float)
              (Py.ValueError "sleep length must be non-negative")
              sample_state) as [Hdvm _]; [reflexivity | reflexivity |].
  destruct (@refused_settle_delay_ends_the_call sample_scope (sample_bench 0)
              (Py.Str "CHAN1") (Some (-1)%float)
              (Py.ValueError "sleep length must be non-negative")
              sample_state) as [_ Hall]; [reflexivity | reflexivity |].
  split.
  - apply (Hdvm ltac:(reflexivity) 3 "DC" None).
  - apply (Hall ltac:(reflexivity) "VPP" None false).
Defined.

(** X6.  Whatever the arguments and however the call ends (returned,
    rejected, still polling), [_readDVM], [_measure] and [channelLabel]
    change nothing in the object but the current channel, which becomes the
    channel passed, if one is passed and it is not a list, and stays what
    it was otherwise; in particular the lists of valid channels and the
    sentinel are never touched. *)
Theorem calls_only_set_channel `{Oscilloscope} `{Bench}
    (c : Py.value) (s : state) :
  let o' := with_channel (selected (self s) c) (self s) in
  (forall fuel mode timeout wait,
     self (final (_readDVM fuel mode c timeout wait s)) = o')
  /\ (forall mode para wait install,
        self (final (_measure mode para c wait install s)) = o')
  /\ (forall label, self (final (channelLabel label c s)) = o').
Proof.
  intros o'. split; [| split].
  - intros. apply readDVM_final_self.
  - intros mode para wait install.
    destruct (accepted_or_refused (_chanAllValidList (self s)) c s)
      as [R | [Hl Hin]].
    + now destruct (measure_rejects mode para c wait install s R) as [msg ->].
    + now rewrite (measure_final _ _ _ _ _ _ Hl Hin).
  - intros label.
    destruct (accepted_or_refused (_chanAnaValidList (self s)) c s)
      as [R | [Hl Hin]].
    + now destruct (channelLabel_rejects label c s R) as [msg ->].
    + now rewrite (channelLabel_accepts _ _ _ Hl Hin).
Qed.

(** X7.  [channelLabel] checks the channel like the DVM functions do: a
    selector that is a list, or that is not an analog channel (the current
    channel when none is passed), is rejected before anything is sent;
    otherwise exactly two commands are written, the label of the channel,
    with the channel as it was passed, and [DISPlay:LABel ON]. *)
Theorem channelLabel_checks_then_writes `{Oscilloscope} `{Bench}
    (label : string) (c : Py.value) (s : state) :
  (refused (_chanAnaValidList (self s)) c s ->
   rejected (channelLabel label c s) s)
  /\ (Py.is_list c = false ->
      Py.in_ (selected (self s) c) (_chanAnaValidList (self s)) = true ->
      channelLabel label c s
      = Ret tt
          {| self := with_channel (selected (self s) c) (self s);
             trace :=
               (trace s
                ++ [Write ("CHAN" ++ Py.str (selected (self s) c) ++ ":LABel "
                           ++ dquote ++ label ++ dquote);
                    Write "DISPlay:LABel ON"])%list |}).
Proof.
  split.
  - intros R. destruct (channelLabel_rejects label c s R) as [msg E].
    exists msg, (select c s). now split.
  - intros Hl Hin. exact (channelLabel_accepts label c s Hl Hin).
Qed.

(** An instance: channel ['CHAN1'] is no analog channel for a label;
    channel ['3'] is. *)
Lemma channelLabel_checks_then_writes_witness :
  rejected (channelLabel "clk" (Py.Str "CHAN1") sample_state) sample_state
  /\ channelLabel "clk" (Py.Str "3") sample_state
     = Ret tt
         {| self := with_channel (Py.Str "3") sample_obj;
            trace := [Write ("CHAN3:LABel " ++ dquote ++ "clk" ++ dquote);
                      Write "DISPlay:LABel ON"] |}.
Proof.
  split.
  - apply (@channelLabel_checks_then_writes sample_scope (sample_bench 0)
             "clk" (Py.Str "CHAN1") sample_state).
    right. reflexivity.
  - apply (@channelLabel_checks_then_writes sample_scope (sample_bench 0)
             "clk" (Py.Str "3") sample_state); reflexivity.
Defined.

(** X8.  A channel given as an integer (1 instead of ['1']) is rejected
    by every function that checks the channel, on every instrument and in
    every state, before anything is sent: the valid lists hold strings, and
    no integer equals a string. *)
Theorem integer_channel_is_rejected `{Oscilloscope} `{Bench}
    (z : Z) (s : state) :
  (forall fuel mode timeout wait,
     rejected (_readDVM fuel mode (Py.Int z) timeout wait s) s)
  /\ (forall mode para wait install,
        rejected (_measure mode para (Py.Int z) wait install s) s)
  /\ (forall label, rejected (channelLabel label (Py.Int z) s) s).
Proof.
  assert (N : forall l, Py.in_ (Py.Int z) l = false).
  { intros l. unfold Py.in_. induction l as [| x l IH]; [reflexivity |].
    cbn. exact IH. }
  assert (R : forall valid, refused valid (Py.Int z) s).
  { intros valid. right. cbn. apply N. }
  split; [| split].
  - intros fuel mode timeout wait.
    destruct (readDVM_rejects fuel mode (Py.Int z) timeout wait s (R _))
      as [msg E].
    exists msg, (select (Py.Int z) s). now split.
  - intros mode para wait install.
    destruct (measure_rejects mode para (Py.Int z) wait install s (R _))
      as [msg E].
    exists msg, (select (Py.Int z) s). now split.
  - intros label.
    destruct (channelLabel_rejects label (Py.Int z) s (R _)) as [msg E].
    exists msg, (select (Py.Int z) s). now split.
Qed.

Section Pods.
Context `{Oscilloscope}.

(** The decimal notation of a number starts with a digit, not with the
    letter P. *)
Lemma str_nat_not_pod (k : nat) (rest : string) :
  Py.str_nat k <> String "P"%char rest.
Proof.
  unfold Py.str_nat, NilZero.string_of_uint.
  destruct (Nat.to_uint k); cbn; discriminate.
Qed.

Lemma pod_not_analog maxChannel chan0 version overRange (rest : string) :
  Py.in_ (Py.Str (String "P"%char rest))
    (_chanAnaValidList (__init__ maxChannel chan0 version overRange)) = false.
Proof.
  cbn [__init__ _chanAnaValidList].
  destruct (Py.in_ _ _) eqn:E; [| reflexivity].
  unfold Py.in_ in E. apply existsb_exists in E as (x & Hx & Heq).
  apply in_map_iff in Hx as (k & <- & _).
  cbn in Heq. apply String.eqb_eq in Heq.
  now destruct (str_nat_not_pod k rest).
Qed.

Lemma pod_in_all maxChannel chan0 version overRange (pod : string) :
  pod = "POD1" \/ pod = "POD2" ->
  Py.in_ (Py.Str pod)
    (_chanAllValidList (__init__ maxChannel chan0 version overRange)) = true.
Proof.
  intros Hp. cbn [__init__ _chanAllValidList].
  unfold Py.in_. rewrite existsb_app. apply orb_true_iff. right.
  destruct Hp as [-> | ->]; reflexivity.
Qed.

End Pods.

(** X9.  On every instrument as [__init__] sets it up, whatever its
    number of channels, the digital pods [POD1] and [POD2] are channels for
    the scalar measurements only: [_readDVM] and [channelLabel] reject them
    before anything is sent, [_measure] accepts them and starts by asking
    for the measurement source. *)
Theorem pods_are_for_scalar_measurements_only `{Oscilloscope} `{Bench}
    (maxChannel : nat) (chan0 : Py.value) (version overRange : float)
    (tr : list Event) (pod : string) :
  pod = "POD1" \/ pod = "POD2" ->
  let s := {| self := __init__ maxChannel chan0 version overRange;
              trace := tr |} in
  (forall fuel mode timeout wait,
     rejected (_readDVM fuel mode (Py.Str pod) timeout wait s) s)
  /\ (forall label, rejected (channelLabel label (Py.Str pod) s) s)
  /\ (forall mode para wait install,
      exists sent,
        trace (final (_measure mode para (Py.Str pod) wait install s))
        = (tr ++ Query "MEASure:SOURce?" :: sent)%list).
Proof.
  intros Hp s.
  assert (A : refused (_chanAnaValidList (self s)) (Py.Str pod) s).
  { right. cbn [selected Py.is_none Py.is_list negb andb s self].
    destruct Hp as [-> | ->]; apply pod_not_analog. }
  split; [| split].
  - intros fuel mode timeout wait.
    destruct (readDVM_rejects fuel mode (Py.Str pod) timeout wait s A)
      as [msg E].
    exists msg, (select (Py.Str pod) s). now split.
  - intros label.
    destruct (channelLabel_rejects label (Py.Str pod) s A) as [msg E].
    exists msg, (select (Py.Str pod) s). now split.
  - intros mode para wait install.
    rewrite measure_final; [eexists; reflexivity | reflexivity |].
    cbn [selected Py.is_none Py.is_list negb andb s self].
    now apply pod_in_all.
Qed.

(** An instance: POD2 on the four-channel example instrument. *)
Lemma pods_are_for_scalar_measurements_only_witness :
  rejected (@_readDVM sample_scope (sample_bench 0) 1 "DC" (Py.Str "POD2")
              None None sample_state) sample_state
  /\ exists sent,
       trace (final (@_measure (sample_bench 0) "VMAX" None (Py.Str "POD2")
                       None false sample_state))
       = ([] ++ Query "MEASure:SOURce?" :: sent)%list.
Proof.
  destruct (@pods_are_for_scalar_measurements_only sample_scope
              (sample_bench 0) 4 (Py.Str "1") 7.5%float sentinel [] "POD2")
    as (Hdvm & _ & Hm); [now right |].
  split.
  - apply (Hdvm 1 "DC" None None).
  - apply (Hm "VMAX" None None false).
Defined.

(** ** Annotation, further *)

(** X10.  With firmware above 2.60, [annotate] uses the bookmark only:
    it saves the text (and the colour, when one is passed), places the
    bookmark and sets it with the text and the translation of the colour
    (the saved one when none is passed), provided that colour is in the
    translation table; the background is ignored and no [DISPlay:ANN]
    command is written. *)
Theorem annotate_uses_bookmark (text : string) (color : option string)
    (background new : string) (s : state) :
  (v2_60 <? _version (self s))%float = true ->
  let col := match color with
             | Some c => c
             | None => _annotationColor (self s)
             end in
  dict_get _colorNameOldtoNew col = Some new ->
  annotate text color background s
  = Ret tt
      {| self := with_annotationColor col (with_annotationText text (self s));
         trace :=
           (trace s
            ++ [Write "DISPlay:BOOKmark1:XPOSition 0.015";
                Write "DISPlay:BOOKmark1:YPOSition 0.06";
                Write ("DISPlay:BOOKmark1:SET NONE," ++ dquote ++ text ++ dquote
                       ++ "," ++ new ++ "," ++ dquote ++ text ++ dquote)])%list |}.
Proof.
  intros Hv col Hnew. unfold v2_60 in Hv.
  pose proof (ltb_not_geb _ _ Hv) as Hle.
  unfold annotate. unfold bind at 1. unfold set_annotationText at 1.
  unfold bind at 1. unfold annotateColor.
  unfold bind at 1. unfold get at 1.
  cbn [self _version with_annotationText]. rewrite Hv.
  destruct color as [c |]; unfold col in *;
    unfold bind, set_annotationColor, _instWrite, get, ret, log;
    cbn -[dict_get]; rewrite Hnew; cbn; rewrite Hle; cbn;
    rewrite <- !app_assoc; reflexivity.
Qed.

(** An instance: a text in the colour of the markers. *)
Lemma annotate_uses_bookmark_witness :
  annotate "DUT 7" (Some "marker") "OPAQ" sample_state
  = Ret tt
      {| self := with_annotationColor "marker"
                   (with_annotationText "DUT 7" sample_obj);
         trace := [Write "DISPlay:BOOKmark1:XPOSition 0.015";
                   Write "DISPlay:BOOKmark1:YPOSition 0.06";
                   Write ("DISPlay:BOOKmark1:SET NONE," ++ dquote ++ "DUT 7"
                          ++ dquote ++ ",MARK," ++ dquote ++ "DUT 7"
                          ++ dquote)] |}.
Proof.
  apply (annotate_uses_bookmark "DUT 7" (Some "marker") "OPAQ" "MARK"
           sample_state); reflexivity.
Defined.

(** X11.  With firmware up to 2.60, [annotate] uses the legacy commands
    only: the colour, when one is passed, as it is (not translated, and not
    saved), then the background, the text and [DISPlay:ANN ON]; no bookmark
    command is written, whatever the colour. *)
Theorem annotate_uses_legacy_commands (text : string) (color : option string)
    (background : string) (s : state) :
  (_version (self s) <=? v2_60)%float = true ->
  annotate text color background s
  = Ret tt
      {| self := with_annotationText text (self s);
         trace :=
           (trace s
            ++ match color with
               | Some c => [Write ("DISPlay:ANN:COLor " ++ c)]
               | None => []
               end
            ++ [Write ("DISPlay:ANN:BACKground " ++ background);
                Write ("DISPlay:ANN:TEXT " ++ dquote ++ text ++ dquote);
                Write "DISPlay:ANN ON"])%list |}.
Proof.
  intros Hv. unfold v2_60 in Hv.
  pose proof (leb_not_gtb _ _ Hv) as Hgt.
  unfold annotate. unfold bind at 1. unfold set_annotationText at 1.
  unfold bind at 1. unfold annotateColor.
  unfold bind at 1. unfold get at 1.
  cbn [self _version with_annotationText]. rewrite Hgt.
  destruct color as [c |];
    unfold bind, _instWrite, get, ret, log; cbn; rewrite Hv; cbn;
    rewrite <- ?app_assoc; reflexivity.
Qed.

(** An instance: firmware 2.5. *)
Lemma annotate_uses_legacy_commands_witness :
  annotate "DUT 7" (Some "RED") "TRAN"
    {| self := @__init__ sample_scope 4 (Py.Str "1") 2.5 sentinel;
       trace := [] |}
  = Ret tt
      {| self := with_annotationText "DUT 7"
                   (@__init__ sample_scope 4 (Py.Str "1") 2.5 sentinel);
         trace := [Write "DISPlay:ANN:COLor RED";
                   Write "DISPlay:ANN:BACKground TRAN";
                   Write ("DISPlay:ANN:TEXT " ++ dquote ++ "DUT 7" ++ dquote);
                   Write "DISPlay:ANN ON"] |}.
Proof.
  apply (annotate_uses_legacy_commands "DUT 7" (Some "RED") "TRAN"
           {| self := @__init__ sample_scope 4 (Py.Str "1") 2.5 sentinel;
              trace := [] |}).
  reflexivity.
Defined.

(** X12.  With firmware above 2.60, a colour that is not in the
    translation table makes [annotateColor] raise [KeyError], after it has
    saved that colour and written the two position commands, and without
    setting the bookmark.  The failure stays: until a colour of the table
    is passed, [annotateColor(None)] and [annotate(text)] raise [KeyError]
    for the saved colour again. *)
Theorem annotateColor_unknown_colour_sticks (c : string) (s : state) :
  (v2_60 <? _version (self s))%float = true ->
  dict_get _colorNameOldtoNew c = None ->
  let place := [Write "DISPlay:BOOKmark1:XPOSition 0.015";
                Write "DISPlay:BOOKmark1:YPOSition 0.06"] in
  let s1 := {| self := with_annotationColor c (self s);
               trace := (trace s ++ place)%list |} in
  annotateColor (Some c) s = Raise (Py.KeyError c) s1
  /\ annotateColor None s1
     = Raise (Py.KeyError c)
         {| self := self s1; trace := (trace s1 ++ place)%list |}
  /\ forall text background,
       annotate text None background s1
       = Raise (Py.KeyError c)
           {| self := with_annotationText text (self s1);
              trace := (trace s1 ++ place)%list |}.
Proof.
  intros Hv Hc place s1. unfold v2_60 in Hv.
  split; [| split; [| intros text background]].
  - unfold annotateColor. unfold bind at 1. unfold get at 1. rewrite Hv.
    unfold bind, set_annotationColor, _instWrite, get, ret, raise, log.
    cbn -[dict_get]. rewrite Hc. cbn. now rewrite <- !app_assoc.
  - unfold annotateColor. unfold bind at 1. unfold get at 1.
    cbn [s1 self _version with_annotationColor]. rewrite Hv.
    unfold bind, _instWrite, get, ret, raise, log.
    cbn -[dict_get]. rewrite Hc. cbn. now rewrite <- !app_assoc.
  - unfold annotate. unfold bind at 1. unfold set_annotationText at 1.
    unfold bind at 1. unfold annotateColor.
    unfold bind at 1. unfold get at 1.
    cbn [s1 self _version with_annotationColor with_annotationText]. rewrite Hv.
    unfold bind, _instWrite, get, ret, raise, log.
    cbn -[dict_get]. rewrite Hc. cbn. now rewrite <- !app_assoc.
Qed.

(** An instance: the colour name of the instrument, [WHIT], instead of
    the name of the table, [white]. *)
Lemma annotateColor_unknown_colour_sticks_witness :
  annotateColor (Some "WHIT") sample_state
  = Raise (Py.KeyError "WHIT")
      {| self := with_annotationColor "WHIT" sample_obj;
         trace := [Write "DISPlay:BOOKmark1:XPOSition 0.015";
                   Write "DISPlay:BOOKmark1:YPOSition 0.06"] |}.
Proof.
  apply (annotateColor_unknown_colour_sticks "WHIT" sample_state);
    reflexivity.
Defined.

(** ** The statistics window *)

Section SplitComma.

#[local] Arguments Ascii.eqb _ _ : simpl never.

Lemma split_comma_not_nil (s : string) : split_comma s <> [].
Proof.
  destruct s as [| c r]; cbn; [discriminate |].
  destruct (Ascii.eqb c ","); [discriminate |].
  destruct (split_comma r); discriminate.
Qed.

Lemma join_cons (sep f : string) (fs : list string) :
  fs <> [] -> join sep (f :: fs) = f ++ sep ++ join sep fs.
Proof. destruct fs; [congruence | reflexivity]. Qed.

(** Joining the fields with commas gives the text back. *)
Lemma join_split_comma (s : string) : join "," (split_comma s) = s.
Proof.
  induction s as [| c r IH]; [reflexivity |].
  cbn [split_comma]. destruct (Ascii.eqb c ",") eqn:E.
  - apply Ascii.eqb_eq in E. subst c.
    rewrite join_cons by apply split_comma_not_nil.
    now rewrite IH.
  - pose proof (split_comma_not_nil r) as N.
    destruct (split_comma r) as [| f fs]; [congruence |].
    destruct fs as [| g fs].
    + cbn in *. now rewrite IH.
    + rewrite join_cons by discriminate.
      rewrite join_cons in IH by discriminate.
      rewrite <- IH. reflexivity.
Qed.

(** No field holds a comma. *)
Lemma split_comma_fields (s : string) :
  Forall (fun f => count_char "," f = 0) (split_comma s).
Proof.
  induction s as [| c r IH]; [repeat constructor |].
  cbn [split_comma]. destruct (Ascii.eqb c ",") eqn:E.
  - constructor; [reflexivity | exact IH].
  - destruct (split_comma r) as [| f fs].
    + repeat constructor. cbn. rewrite Ascii.eqb_sym, E. reflexivity.
    + inversion IH as [| ? ? Hf Hfs]; subst. constructor; [| exact Hfs].
      cbn. rewrite Ascii.eqb_sym, E. exact Hf.
Qed.

(** There is one field more than there are commas. *)
Lemma split_comma_length (s : string) :
  List.length (split_comma s) = S (count_char "," s).
Proof.
  induction s as [| c r IH]; [reflexivity |].
  cbn [split_comma count_char]. rewrite (Ascii.eqb_sym "," c).
  destruct (Ascii.eqb c ",") eqn:E.
  - cbn. now rewrite IH.
  - pose proof (split_comma_not_nil r) as N.
    destruct (split_comma r) as [| f fs]; [congruence |].
    cbn in *. exact IH.
Qed.

End SplitComma.

(** X13.  [_measureStatistics] turns the statistics on, asks for the
    results once, and returns the reply cut at its commas: the fields hold
    no comma, there is one more of them than commas in the reply (so at
    least one, also for an empty reply), and joined with commas they give
    the reply back. *)
Theorem measureStatistics_returns_the_fields `{Bench} (s : state) :
  let reply := answer (trace s ++ [Write "MEASure:STATistics ON"])
                 "MEASure:RESults?" in
  exists fields,
    _measureStatistics s
    = Ret fields
        {| self := self s;
           trace := (trace s ++ [Write "MEASure:STATistics ON";
                                 Query "MEASure:RESults?"])%list |}
    /\ join "," fields = reply
    /\ List.length fields = S (count_char "," reply)
    /\ Forall (fun f => count_char "," f = 0) fields.
Proof.
  intros reply. exists (split_comma reply). split; [| split; [| split]].
  - unfold _measureStatistics, bind, _instWrite, _instQuery, ret, log. cbn.
    now rewrite <- app_assoc.
  - apply join_split_comma.
  - apply split_comma_length.
  - apply split_comma_fields.
Qed.

(** ** Display of a reading *)

(** X14.  What [_readDVM] returns when it gives up at the deadline (mode
    other than FREQ, a sentinel that is a number, a settle delay that
    [time.sleep] takes) is shown by [polish] as the invalid mark [------],
    whatever the measurement label, known to the table or not: the silent
    timeout of the reading surfaces as dashes. *)
Theorem timed_out_reading_is_shown_as_dashes `{Oscilloscope} `{Bench}
    (script : nat -> float) (time : nat -> Z) (N fuel : nat) (mode : string)
    (c : Py.value) (T : float) (wait : option float) (s : state) :
  scripted_polls script ->
  scripted_clock time ->
  Py.is_list c = false ->
  Py.in_ (selected (self s) c) (_chanAnaValidList (self s)) = true ->
  String.eqb mode "FREQ" = false ->
  wait_error wait = None ->
  over_range (self s) (OverRange (self s)) = true ->
  (forall i, i < N ->
     timed_out (Some T) (time (ticks (trace s) + 1 + i) - time (ticks (trace s)))
     = false) ->
  timed_out (Some T) (time (ticks (trace s) + 1 + N) - time (ticks (trace s)))
  = true ->
  (forall i, i < N -> over_range (self s) (script (polls (trace s) + i)) = true) ->
  N < fuel ->
  exists v s',
    _readDVM fuel mode c (Some T) wait s = Ret v s'
    /\ forall measure, polish (self s') v measure = Text "------".
Proof.
  intros Hscript Hclock Hl Hin Hmode Hw Eo Ht Hd Hover Hfuel.
  rewrite (readDVM_accepts _ _ _ _ _ _ Hl Hin Hw).
  set (h := (trace s ++ setup_events (trace s) (selected (self s) c) mode wait)%list).
  assert (Hp : polls (h ++ [Now]) = polls (trace s)).
  { unfold h. rewrite !polls_app, polls_setup. cbn. lia. }
  assert (Hk : ticks h = ticks (trace s)).
  { unfold h. rewrite ticks_app, ticks_setup. lia. }
  assert (Hk' : ticks (h ++ [Now]) = ticks (trace s) + 1).
  { rewrite ticks_app, Hk. reflexivity. }
  unfold bind.
  rewrite (poll_timeout_exit script Hscript N); cbn [self trace select].
  - unfold after_poll. rewrite Hmode. unfold ret. rewrite Hp.
    eexists. eexists. split; [reflexivity |].
    intros measure. unfold polish.
    replace (over_range _ _) with true; [reflexivity |].
    symmetry. destruct N as [| n]; cbn [last_seen self].
    + exact Eo.
    + apply (Hover n). lia.
  - exact Hfuel.
  - exact Eo.
  - intros i Hi h' Hh'. rewrite !Hclock, Hh', Hk', Hk. now apply Ht.
  - intros h' Hh'. rewrite !Hclock, Hh', Hk', Hk. exact Hd.
  - intros i Hi. rewrite Hp. now apply Hover.
Qed.

(** An instance: the reading never settles and the timeout is 2.5 s. *)
Lemma timed_out_reading_is_shown_as_dashes_witness :
  exists v s',
    @_readDVM sample_scope (sample_bench 9) 3 "DC" (Py.Str "1")
      (Some 2.5%float) None sample_state
    = Ret v s'
    /\ forall measure, @polish (sample_bench 9) (self s') v measure = Text "------".
Proof.
  apply (@timed_out_reading_is_shown_as_dashes sample_scope (sample_bench 9)
           (fun k => if (k <? 9)%nat then sentinel else 1.25%float)
           (fun k => (1000000 * Z.of_nat k)%Z)
           2 3 "DC" (Py.Str "1") 2.5%float None sample_state).
  - intros h. reflexivity.
  - intros h. reflexivity.
  - reflexivity.
  - reflexivity.
  - reflexivity.
  - reflexivity.
  - reflexivity.
  - intros [| [| i]] Hi; [reflexivity | reflexivity | lia].
  - reflexivity.
  - intros [| [| i]] Hi; [reflexivity | reflexivity | lia].
  - lia.
Defined.

(** ** The converter, further *)

Section FormatCharacters.

#[local] Arguments Ascii.eqb _ _ : simpl never.

Lemma count_char_app (c : ascii) (a b : string) :
  count_char c (a ++ b) = count_char c a + count_char c b.
Proof.
  induction a as [| x a IH]; [reflexivity |].
  change (String x a ++ b) with (String x (a ++ b)).
  cbn [count_char]. rewrite IH. lia.
Qed.

(** A character that does not occur in a text differs from those that
    do. *)
Lemma absent_differs (c x : ascii) (s : string) :
  count_char c s = 0 -> count_char x s <> 0 -> Ascii.eqb c x = false.
Proof.
  intros Hc Hx. destruct (Ascii.eqb c x) eqn:E; [| reflexivity].
  apply Ascii.eqb_eq in E. subst x. contradiction.
Qed.

Variable c : ascii.
Hypothesis Hc : count_char c fmt_chars = 0.

Ltac absent :=
  cbn [count_char];
  repeat match goal with
         | |- context [Ascii.eqb c ?x] =>
             rewrite (absent_differs c x fmt_chars Hc)
               by (vm_compute; discriminate)
         end;
  cbn [Nat.add].

Lemma count_char_digits (d : Decimal.uint) :
  count_char c (NilEmpty.string_of_uint d) = 0.
Proof.
  induction d; cbn [NilEmpty.string_of_uint]; absent; auto.
Qed.

Lemma count_char_str_N (z : Z) : count_char c (str_N z) = 0.
Proof.
  unfold str_N, NilZero.string_of_uint.
  destruct (N.to_uint (Z.to_N z)) eqn:E; try (rewrite <- E; apply count_char_digits).
  now absent.
Qed.

Lemma count_char_str_exp (k : Z) : count_char c (str_exp k) = 0.
Proof.
  unfold str_exp. rewrite !count_char_app, count_char_str_N.
  destruct (k <? 0)%Z, (Z.abs k <? 10)%Z; now absent.
Qed.

Lemma count_char_str_sci (q k : Z) : count_char c (str_sci q k) = 0.
Proof.
  unfold str_sci. pose proof (count_char_str_N q) as Hq.
  destruct (str_N q) as [| x rest]; [reflexivity |].
  change (String x ("." ++ rest) ++ str_exp k)
    with (String x (("." ++ rest) ++ str_exp k)).
  cbn [count_char] in Hq |- *.
  rewrite !count_char_app, count_char_str_exp.
  assert (count_char c "." = 0) as -> by now absent.
  lia.
Qed.

(** A character that [%.18e] does not print is not in what it prints. *)
Lemma count_char_fmt_e18 (f : float) : count_char c (fmt_e18 f) = 0.
Proof.
  unfold fmt_e18. destruct (Prim2SF f) as [sg | sg | | sg m e].
  - destruct sg; rewrite count_char_app; now absent.
  - destruct sg; now absent.
  - now absent.
  - destruct (if (0 <=? e)%Z then sci19 (Z.pos m * 2 ^ e) 1
              else sci19 (Z.pos m) (2 ^ (- e))) as [q k].
    rewrite count_char_app, count_char_str_sci.
    destruct sg; now absent.
Qed.

(** In the text written for [n] rows of two numbers, such a character
    occurs as often as in [n] commas and [n] ends of line. *)
Lemma count_char_savetxt (ps : list (float * float)) :
  count_char c (savetxt (map (fun p => [fst p; snd p]) ps) ",")
  = List.length ps * (count_char c "," + count_char c newline).
Proof.
  unfold savetxt. induction ps as [| p ps IH]; [reflexivity |].
  cbn [map List.length Nat.mul join].
  set (row := (fmt_e18 (fst p) ++ "," ++ fmt_e18 (snd p)) ++ newline).
  assert (R : count_char c row = count_char c "," + count_char c newline).
  { unfold row. rewrite !count_char_app, !count_char_fmt_e18. lia. }
  destruct ps as [| p' ps].
  - cbn [map String.concat List.length Nat.mul]. rewrite R. lia.
  - change (String.concat EmptyString (row :: ?l))
      with (row ++ EmptyString ++ String.concat EmptyString l).
    cbn [map] in IH |- *.
    set (rest := String.concat EmptyString _) in *.
    change (row ++ EmptyString ++ rest) with (row ++ rest).
    rewrite count_char_app, R, IH. cbn [List.length]. lia.
Qed.

End FormatCharacters.

(** X15.  For two arrays of the same length [n] (zero included), the
    converter writes one file, and its content has exactly [n] ends of line
    and exactly [n] commas: every sample gives one line of two fields, since
    a number in [%.18e] notation holds neither a comma nor an end of line. *)
Theorem csv_has_one_line_of_two_fields_per_sample `{Pathlib}
    (filename : string) (x y : list float) :
  List.length x = List.length y ->
  exists content,
    main filename x y = [SaveFile (with_suffix filename ".csv") content]
    /\ count_char (ascii_of_nat 10) content = List.length x
    /\ count_char ","%char content = List.length x.
Proof.
  intros Hlen. unfold main. rewrite Hlen, Nat.eqb_refl.
  eexists. split; [reflexivity |]. unfold transpose2.
  assert (L : List.length (combine x y) = List.length x).
  { rewrite length_combine, Hlen. apply Nat.min_id. }
  split.
  - rewrite count_char_savetxt by reflexivity. rewrite L.
    change (count_char (ascii_of_nat 10) "," + count_char (ascii_of_nat 10) newline)
      with 1.
    lia.
  - rewrite count_char_savetxt by reflexivity. rewrite L.
    change (count_char "," "," + count_char "," newline) with 1.
    lia.
Qed.

(** An instance: the arrays of the example, three samples. *)
Lemma csv_has_one_line_of_two_fields_per_sample_witness :
  exists content,
    @main sample_pathlib "wave.npz" sample_x sample_y
    = [SaveFile "wave.csv" content]
    /\ count_char (ascii_of_nat 10) content = 3
    /\ count_char ","%char content = 3.
Proof.
  apply (@csv_has_one_line_of_two_fields_per_sample sample_pathlib "wave.npz"
           sample_x sample_y).
  reflexivity.
Defined.

(** ** A timeout that is not reached *)

(** X16.  A timeout matters only when it is reached: against a scripted
    instrument whose first [N] polls are over range and whose next poll is
    not, if the deadline has not passed at any of the [N + 1] clock
    readings of the loop, [_readDVM] with that timeout does exactly what it
    does with no timeout, history included. *)
Theorem readDVM_timeout_not_reached `{Oscilloscope} `{Bench}
    (script : nat -> float) (time : nat -> Z) (N fuel : nat) (mode : string)
    (c : Py.value) (T : float) (wait : option float) (s : state) :
  scripted_polls script ->
  scripted_clock time ->
  Py.is_list c = false ->
  Py.in_ (selected (self s) c) (_chanAnaValidList (self s)) = true ->
  over_range (self s) (OverRange (self s)) = true ->
  (forall i, i < N -> over_range (self s) (script (polls (trace s) + i)) = true) ->
  over_range (self s) (script (polls (trace s) + N)) = false ->
  (forall i, i <= N ->
     timed_out (Some T) (time (ticks (trace s) + 1 + i) - time (ticks (trace s)))
     = false) ->
  N < fuel ->
  _readDVM fuel mode c (Some T) wait s = _readDVM fuel mode c None wait s
  /\ ended (_readDVM fuel mode c (Some T) wait s) = true.
Proof.
  intros Hscript Hclock Hl Hin Eo Hover Hv Ht Hfuel.
  pose proof (readDVM_runs fuel mode c (Some T) wait s Hl Hin) as E1.
  pose proof (readDVM_runs fuel mode c None wait s Hl Hin) as E2.
  cbv zeta in E1, E2. rewrite E1, E2. clear E1 E2.
  destruct (wait_error wait) as [e |]; [split; reflexivity |].
  set (h := (trace s ++ setup_events (trace s) (selected (self s) c) mode wait)%list).
  assert (Hp : polls (h ++ [Now]) = polls (trace s)).
  { unfold h. rewrite !polls_app, polls_setup. cbn. lia. }
  assert (Hk : ticks h = ticks (trace s)).
  { unfold h. rewrite ticks_app, ticks_setup. lia. }
  assert (Hk' : ticks (h ++ [Now]) = ticks (trace s) + 1).
  { rewrite ticks_app, Hk. reflexivity. }
  unfold bind.
  rewrite !(poll_valid_exit script Hscript N); cbn [self trace select];
    try exact Hfuel; try exact Eo;
    try (intros i Hi; rewrite Hp; now apply Hover);
    try (rewrite Hp; exact Hv);
    try reflexivity.
  - split; [reflexivity |].
    unfold after_poll, _instQueryNumber, ret.
    now destruct (String.eqb mode "FREQ").
  - intros i Hi h' Hh'. rewrite !Hclock, Hh', Hk', Hk. now apply Ht.
Qed.

(** An instance: a valid reading on the third poll, three seconds after
    the start, with a timeout of ten seconds. *)
Lemma readDVM_timeout_not_reached_witness :
  @_readDVM sample_scope (sample_bench 2) 3 "DC" (Py.Str "1")
    (Some 10%float) None sample_state
  = @_readDVM sample_scope (sample_bench 2) 3 "DC" (Py.Str "1")
      None None sample_state
  /\ ended (@_readDVM sample_scope (sample_bench 2) 3 "DC" (Py.Str "1")
              (Some 10%float) None sample_state) = true.
Proof.
  apply (@readDVM_timeout_not_reached sample_scope (sample_bench 2)
           (fun k => if (k <? 2)%nat then sentinel else 1.25%float)
           (fun k => (1000000 * Z.of_nat k)%Z)
           2 3 "DC" (Py.Str "1") 10%float None sample_state).
  - intros h. reflexivity.
  - intros h. reflexivity.
  - reflexivity.
  - reflexivity.
  - reflexivity.
  - intros [| [| i]] Hi; [reflexivity | reflexivity | lia].
  - reflexivity.
  - intros [| [| [| i]]] Hi; [reflexivity | reflexivity | reflexivity | lia].
  - lia.
Defined.
